(** * DeepSeek for Copilot: the streaming client and the message bridge

    A shallow embedding of [src/deepseekClient.ts] (the server-sent-event
    read loop of [streamChatCompletion], its tool-call accumulator and its
    error paths) and of [src/provider.ts] ([convertMessages], the callbacks
    of [provideLanguageModelChatResponse] and the reasoning cache), with the
    properties the specification states about them.

    Conventions.
    - Text is a [string] of 8-bit units holding the text in UTF-8: the
      characters the client tests for (line feed, [:], [data: ]) are single
      units and occur nowhere inside a longer character.
    - A callback invocation is an [event]; a session is the list of events
      it produces, in order.  Callbacks are taken to return normally.
    - What the environment does (the outcome of [fetch], of each
      [reader.read()], the cancellation token) is an explicit, finite script.
    - [JSON.parse] is a parameter of the client: the theorems hold for every
      parser.  A frame is parsed at the type the client declares for it,
      [DeepSeekStreamChunk]; a payload that parses to a value that is not
      of that type is outside the model.  Module [Json] has a small
      reference parser with which the examples run on wire text. *)

From Stdlib Require Import List String Ascii ZArith Lia Bool Arith.
From Stdlib.Strings Require Import Byte.
From Stdlib Require Import DecimalString.
Import ListNotations.

Local Open Scope string_scope.
Local Open Scope list_scope.
Local Open Scope nat_scope.

Set Warnings "-register-all".

(* ================================================================== *)
(** * JavaScript strings *)

Module Js.

Definition LF : ascii := "010"%char.

(** [s.split('\n')]: never empty; the last element is the text after the
    last line feed. *)
Fixpoint split_lines (s : string) : list string :=
  match s with
  | EmptyString => [EmptyString]
  | String c r =>
      if Ascii.eqb c LF then EmptyString :: split_lines r
      else match split_lines r with
           | h :: t => String c h :: t
           | [] => [String c EmptyString]
           end
  end.

(** [s.startsWith(p)] *)
Definition startsWith (s p : string) : bool := String.prefix p s.

(** [s.slice(n)] for [0 <= n] *)
Fixpoint slice (n : nat) (s : string) : string :=
  match n, s with
  | O, _ => s
  | S n', String _ r => slice n' r
  | S _, EmptyString => EmptyString
  end.

Fixpoint reverse (acc s : string) : string :=
  match s with
  | EmptyString => acc
  | String c r => reverse (String c acc) r
  end.

(** A value used as a condition: a string is truthy when it is not
    empty, an absent ([undefined]) field is falsy. *)
Definition truthy (o : option string) : bool :=
  match o with
  | Some s => negb (s =? "")%string
  | None => false
  end.

(** ** [trim]

    [String.prototype.trim] removes WhiteSpace and LineTerminator code
    points at both ends: U+0009..U+000D, U+0020, U+00A0, U+1680,
    U+2000..U+200A, U+2028, U+2029, U+202F, U+205F, U+3000, U+FEFF.
    On UTF-8 text these are sequences of one, two or three units. *)

Definition ws1 (a : nat) : bool :=
  ((9 <=? a) && (a <=? 13)) || (a =? 32).

Definition ws2 (a b : nat) : bool := (a =? 194) && (b =? 160).

Definition ws3 (a b c : nat) : bool :=
  ((a =? 225) && (b =? 154) && (c =? 128))
  || ((a =? 226) && (b =? 128)
      && (((128 <=? c) && (c <=? 138)) || (c =? 168) || (c =? 169) || (c =? 175)))
  || ((a =? 226) && (b =? 129) && (c =? 159))
  || ((a =? 227) && (b =? 128) && (c =? 128))
  || ((a =? 239) && (b =? 187) && (c =? 191)).

(** Number of units of the white-space character [s] starts with; 0 when
    it starts with none. *)
Definition leading_ws (s : string) : nat :=
  match s with
  | String a r =>
      if ws1 (nat_of_ascii a) then 1
      else match r with
           | String b r' =>
               if ws2 (nat_of_ascii a) (nat_of_ascii b) then 2
               else match r' with
                    | String c _ =>
                        if ws3 (nat_of_ascii a) (nat_of_ascii b) (nat_of_ascii c)
                        then 3 else 0
                    | EmptyString => 0
                    end
           | EmptyString => 0
           end
  | EmptyString => 0
  end.

(** The same on a reversed string: the units of a character come last
    unit first. *)
Definition trailing_ws (r : string) : nat :=
  match r with
  | String c r1 =>
      if ws1 (nat_of_ascii c) then 1
      else match r1 with
           | String b r2 =>
               if ws2 (nat_of_ascii b) (nat_of_ascii c) then 2
               else match r2 with
                    | String a _ =>
                        if ws3 (nat_of_ascii a) (nat_of_ascii b) (nat_of_ascii c)
                        then 3 else 0
                    | EmptyString => 0
                    end
           | EmptyString => 0
           end
  | EmptyString => 0
  end.

Fixpoint strip (ws : string -> nat) (fuel : nat) (s : string) : string :=
  match fuel with
  | O => s
  | S fuel' =>
      match ws s with
      | O => s
      | n => strip ws fuel' (slice n s)
      end
  end.

Definition trimStart (s : string) : string :=
  strip leading_ws (String.length s) s.

Definition trimEnd (s : string) : string :=
  reverse "" (strip trailing_ws (String.length s) (reverse "" s)).

Definition trim (s : string) : string := trimEnd (trimStart s).

(** ** [length]

    [s.length] counts UTF-16 code units.  In UTF-8 a character of one, two
    or three units is one code unit and a character of four units is two
    (a surrogate pair); the units that continue a character count with the
    unit that leads it. *)
Definition code_units (c : ascii) : nat :=
  let n := nat_of_ascii c in
  if n <? 128 then 1 else if n <? 192 then 0 else if n <? 240 then 1 else 2.

Fixpoint length (s : string) : nat :=
  match s with
  | EmptyString => 0
  | String c r => code_units c + length r
  end.

End Js.

(* ================================================================== *)
(** * JSON values and a reference parser *)

Module Json.

(** A parsed JSON value.  Numbers are kept as integers: no field the
    client or the provider reads is fractional. *)
Inductive json : Type :=
| JNull
| JBool (b : bool)
| JNum (n : Z)
| JStr (s : string)
| JArr (items : list json)
| JObj (members : list (string * json)).

(** Property read [v.key] on a parsed value; [None] is [undefined].
    Of two members with one key the later one is the property's value. *)
Fixpoint member (key : string) (ms : list (string * json)) : option json :=
  match ms with
  | [] => None
  | (k, v) :: rest =>
      match member key rest with
      | Some v' => Some v'
      | None => if (k =? key)%string then Some v else None
      end
  end.

Definition get (v : json) (key : string) : option json :=
  match v with
  | JObj ms => member key ms
  | _ => None
  end.

(** JavaScript truthiness of a parsed value. *)
Definition truthy (v : json) : bool :=
  match v with
  | JNull => false
  | JBool b => b
  | JNum n => negb (n =? 0)%Z
  | JStr s => negb (s =? "")%string
  | JArr _ | JObj _ => true
  end.

Definition decimal (n : Z) : string := NilZero.string_of_int (Z.to_int n).

(** [String(v)], as a template literal applies it. *)
Fixpoint ToString (v : json) : string :=
  match v with
  | JNull => "null"
  | JBool true => "true"
  | JBool false => "false"
  | JNum n => decimal n
  | JStr s => s
  | JArr items =>
      (fix join (l : list json) : string :=
         match l with
         | [] => ""
         | [x] => match x with JNull => "" | _ => ToString x end
         | x :: (_ :: _) as rest =>
             (match x with JNull => "" | _ => ToString x end ++ "," ++ join rest)%string
         end) items
  | JObj _ => "[object Object]"
  end.

(** ** Reference parser

    Objects, arrays, strings with their escapes (code points of the
    basic plane), integers, [true], [false], [null].  A number with a
    fraction or an exponent is refused. *)

Definition dquote : ascii := ascii_of_nat 34.

Definition is_ws (c : ascii) : bool :=
  let n := nat_of_ascii c in (n =? 32) || (n =? 9) || (n =? 10) || (n =? 13).

Fixpoint skip_ws (s : string) : string :=
  match s with
  | String c r => if is_ws c then skip_ws r else s
  | EmptyString => s
  end.

Definition hex_digit (c : ascii) : option N :=
  let n := N_of_ascii c in
  (if (48 <=? n) && (n <=? 57) then Some (n - 48)
  else if (97 <=? n) && (n <=? 102) then Some (n - 87)
  else if (65 <=? n) && (n <=? 70) then Some (n - 55)
  else None)%N.

(** UTF-8 units of a code point of the basic plane. *)
Definition utf8 (cp : N) : option string :=
  let unit n := String (ascii_of_N n) "" in
  (if cp <? 128 then Some (unit cp)
  else if cp <? 2048 then
    Some (unit (192 + cp / 64) ++ unit (128 + cp mod 64))%string
  else if (55296 <=? cp) && (cp <=? 57343) then None
  else Some (unit (224 + cp / 4096) ++ unit (128 + (cp / 64) mod 64)
             ++ unit (128 + cp mod 64))%string)%N.

Definition escape (c : ascii) : option string :=
  let n := nat_of_ascii c in
  let unit k := Some (String (ascii_of_nat k) "") in
  if n =? 34 then unit 34 else if n =? 92 then unit 92
  else if n =? 47 then unit 47 else if n =? 98 then unit 8
  else if n =? 102 then unit 12 else if n =? 110 then unit 10
  else if n =? 114 then unit 13 else if n =? 116 then unit 9
  else None.

(** The characters of a string literal after its opening quote. *)
Fixpoint parse_chars (s : string) : option (string * string) :=
  match s with
  | EmptyString => None
  | String c r =>
      if Ascii.eqb c dquote then Some ("", r)
      else if Ascii.eqb c "\"%char then
        match r with
        | String "u" (String h1 (String h2 (String h3 (String h4 r')))) =>
            match hex_digit h1, hex_digit h2, hex_digit h3, hex_digit h4 with
            | Some a, Some b, Some c', Some d =>
                match utf8 (a * 4096 + b * 256 + c' * 16 + d)%N, parse_chars r' with
                | Some u, Some (t, rest) => Some ((u ++ t)%string, rest)
                | _, _ => None
                end
            | _, _, _, _ => None
            end
        | String e r' =>
            match escape e, parse_chars r' with
            | Some u, Some (t, rest) => Some ((u ++ t)%string, rest)
            | _, _ => None
            end
        | EmptyString => None
        end
      else if nat_of_ascii c <? 32 then None
      else match parse_chars r with
           | Some (t, rest) => Some (String c t, rest)
           | None => None
           end
  end.

Definition is_digit (c : ascii) : bool :=
  let n := nat_of_ascii c in (48 <=? n) && (n <=? 57).

Fixpoint parse_digits (acc : Z) (s : string) : Z * string :=
  match s with
  | String c r =>
      if is_digit c
      then parse_digits (10 * acc + Z.of_nat (nat_of_ascii c - 48))%Z r
      else (acc, s)
  | EmptyString => (acc, s)
  end.

Definition ends_number (s : string) : bool :=
  match s with
  | String c _ => negb (Ascii.eqb c "."%char || Ascii.eqb c "e"%char
                        || Ascii.eqb c "E"%char || is_digit c)
  | EmptyString => true
  end.

Definition parse_nat (s : string) : option (Z * string) :=
  match s with
  | String c r =>
      if Ascii.eqb c "0"%char then
        if ends_number r then Some (0%Z, r) else None
      else if is_digit c then
        let '(n, rest) := parse_digits 0 s in
        if ends_number rest then Some (n, rest) else None
      else None
  | EmptyString => None
  end.

Definition parse_number (s : string) : option (json * string) :=
  match s with
  | String "-" r =>
      match parse_nat r with
      | Some (n, rest) => Some (JNum (- n), rest)
      | None => None
      end
  | _ =>
      match parse_nat s with
      | Some (n, rest) => Some (JNum n, rest)
      | None => None
      end
  end.

Definition keyword (k : string) (v : json) (s : string) : option (json * string) :=
  if String.prefix k s then Some (v, Js.slice (String.length k) s) else None.

Fixpoint parse_value (fuel : nat) (s : string) {struct fuel}
  : option (json * string) :=
  match fuel with
  | O => None
  | S fuel' =>
      match skip_ws s with
      | String "{" r =>
          match skip_ws r with
          | String "}" r' => Some (JObj [], r')
          | r' =>
              match parse_members fuel' r' with
              | Some (ms, rest) => Some (JObj ms, rest)
              | None => None
              end
          end
      | String "[" r =>
          match skip_ws r with
          | String "]" r' => Some (JArr [], r')
          | r' =>
              match parse_items fuel' r' with
              | Some (vs, rest) => Some (JArr vs, rest)
              | None => None
              end
          end
      | String "t" _ as s' => keyword "true" (JBool true) s'
      | String "f" _ as s' => keyword "false" (JBool false) s'
      | String "n" _ as s' => keyword "null" JNull s'
      | String c r as s' =>
          if Ascii.eqb c dquote then
            match parse_chars r with
            | Some (t, rest) => Some (JStr t, rest)
            | None => None
            end
          else parse_number s'
      | EmptyString => None
      end
  end

with parse_items (fuel : nat) (s : string) {struct fuel}
  : option (list json * string) :=
  match fuel with
  | O => None
  | S fuel' =>
      match parse_value fuel' s with
      | Some (v, r) =>
          match skip_ws r with
          | String "," r' =>
              match parse_items fuel' r' with
              | Some (vs, rest) => Some (v :: vs, rest)
              | None => None
              end
          | String "]" r' => Some ([v], r')
          | _ => None
          end
      | None => None
      end
  end

with parse_members (fuel : nat) (s : string) {struct fuel}
  : option (list (string * json) * string) :=
  match fuel with
  | O => None
  | S fuel' =>
      match skip_ws s with
      | String c r =>
          if Ascii.eqb c dquote then
            match parse_chars r with
            | Some (k, r1) =>
                match skip_ws r1 with
                | String ":" r2 =>
                    match parse_value fuel' r2 with
                    | Some (v, r3) =>
                        match skip_ws r3 with
                        | String "," r4 =>
                            match parse_members fuel' r4 with
                            | Some (ms, rest) => Some ((k, v) :: ms, rest)
                            | None => None
                            end
                        | String "}" r4 => Some ([(k, v)], r4)
                        | _ => None
                        end
                    | None => None
                    end
                | _ => None
                end
            | None => None
            end
          else None
      | EmptyString => None
      end
  end.

(** [JSON.parse(text)]: [None] when it throws. *)
Definition parse (text : string) : option json :=
  match parse_value (2 * String.length text + 2) text with
  | Some (v, rest) =>
      match skip_ws rest with
      | EmptyString => Some v
      | _ => None
      end
  | None => None
  end.

(** Wire text is written with ['] for the double quote. *)
Fixpoint wire (s : string) : string :=
  match s with
  | String c r => String (if Ascii.eqb c "'"%char then dquote else c) (wire r)
  | EmptyString => EmptyString
  end.

End Json.

(* ================================================================== *)
(** * [src/deepseekClient.ts] *)

Module DeepSeekClient.

(** ** Wire types *)

(** [DeepSeekToolCall]; its [type] field is the constant ['function']. *)
Record ToolFunction := { name : string; arguments : string }.
Record DeepSeekToolCall := { id : string; function : ToolFunction }.

Inductive Role := system | user | assistant | tool.

Record DeepSeekMessage := {
  role : Role;
  content : string;
  tool_call_id : option string;
  tool_calls : option (list DeepSeekToolCall);
  reasoning_content : option string
}.

(** [DeepSeekStreamChunk], with the fields [streamChatCompletion] reads.
    An optional field is an [option]; [None] also stands for a [null]. *)
Module Chunk.
Record FunctionDelta := { name : option string; arguments : option string }.
Record ToolCallDelta := {
  index : Z;
  id : option string;
  function : option FunctionDelta
}.
Record Delta := {
  content : option string;
  reasoning_content : option string;
  tool_calls : option (list ToolCallDelta)
}.
Record Choice := { delta : Delta; finish_reason : option string }.
Record DeepSeekStreamChunk := { choices : list Choice }.
End Chunk.

(** ** Callbacks *)

Record Error := { error_name : string; message : string }.

(** One invocation of a member of [StreamCallbacks]. *)
Inductive event :=
| onContent (content : string)
| onReasoningContent (content : string)
| onToolCall (toolCall : DeepSeekToolCall)
| onError (error : Error)
| onDone.

(** ** The environment *)

(** A thrown value: an [Error] instance with its [name] and [message], or
    any other value, with the text [String] gives for it. *)
Inductive thrown :=
| ThrowError (e : Error)
| ThrowOther (text : string).

(** What the read loop meets, iteration by iteration:
    the token reports a cancellation at the head of the loop; or
    [reader.read()] gives [{done: true}], rejects, or gives a chunk. *)
Inductive body :=
| Cancelled
| Closed
| ReadFails (e : thrown)
| Read (value : list byte) (rest : body).

(** A response: [text] is the outcome of [response.text()], which the
    client awaits for a response that is not [ok]. *)
Record Response := {
  status : nat;
  text : thrown + string;
  response_body : option body
}.

Definition ok (r : Response) : bool :=
  (200 <=? status r) && (status r <=? 299).

Inductive fetched :=
| FetchFails (e : thrown)
| Fetched (response : Response).

(** ** [TextDecoder]

    [decoder.decode(value, {stream: true})]: a decoder keeps the units
    of a character that a chunk leaves unfinished and gives them with
    the next chunk, so decoding is insensitive to where chunks end. *)
Record TextDecoder := {
  decoder_state : Type;
  decoder_new : decoder_state;
  decode : decoder_state -> list byte -> decoder_state * string;
  decode_nil : forall d, decode d [] = (d, "");
  decode_app : forall d v w,
    decode d (v ++ w) =
    (fst (decode (fst (decode d v)) w),
     (snd (decode d v) ++ snd (decode (fst (decode d v)) w))%string)
}.

(** ** The [Map] of pending tool calls

    A JavaScript [Map] keeps its keys in the order of their first
    insertion, and [values()] follows that order. *)
Definition PendingToolCalls := list (Z * DeepSeekToolCall).

Fixpoint Map_get (m : PendingToolCalls) (k : Z) : option DeepSeekToolCall :=
  match m with
  | [] => None
  | (k', v) :: rest => if (k' =? k)%Z then Some v else Map_get rest k
  end.

Fixpoint Map_set (m : PendingToolCalls) (k : Z) (v : DeepSeekToolCall)
  : PendingToolCalls :=
  match m with
  | [] => [(k, v)]
  | (k', v') :: rest =>
      if (k' =? k)%Z then (k', v) :: rest else (k', v') :: Map_set rest k v
  end.

Definition Map_values (m : PendingToolCalls) : list DeepSeekToolCall :=
  map snd m.

(** An assignment through the reference [pending] changes the object
    the map holds under the key it was read from. *)
Fixpoint Map_update (m : PendingToolCalls) (k : Z)
         (f : DeepSeekToolCall -> DeepSeekToolCall) : PendingToolCalls :=
  match m with
  | [] => []
  | (k', v) :: rest =>
      if (k' =? k)%Z then (k', f v) :: rest else (k', v) :: Map_update rest k f
  end.

Definition append_name (s : string) (p : DeepSeekToolCall) : DeepSeekToolCall :=
  {| id := id p;
     function := {| name := (name (function p) ++ s)%string;
                    arguments := arguments (function p) |} |}.

Definition append_arguments (s : string) (p : DeepSeekToolCall) : DeepSeekToolCall :=
  {| id := id p;
     function := {| name := name (function p);
                    arguments := (arguments (function p) ++ s)%string |} |}.

(** [tc.function?.name], [tc.function?.arguments] *)
Definition function_name (tc : Chunk.ToolCallDelta) : option string :=
  match Chunk.function tc with
  | Some f => Chunk.name f
  | None => None
  end.

Definition function_arguments (tc : Chunk.ToolCallDelta) : option string :=
  match Chunk.function tc with
  | Some f => Chunk.arguments f
  | None => None
  end.

(** The body of [for (const tc of choice.delta.tool_calls)]. *)
Definition accumulate (pendingToolCalls : PendingToolCalls)
           (tc : Chunk.ToolCallDelta) : PendingToolCalls :=
  let pending := Map_get pendingToolCalls (Chunk.index tc) in
  let '(pendingToolCalls, pending) :=
    match pending, Chunk.id tc with
    | None, Some i =>
        if negb (i =? "")%string then
          let fresh := {| id := i; function := {| name := ""; arguments := "" |} |} in
          (Map_set pendingToolCalls (Chunk.index tc) fresh, Some fresh)
        else (pendingToolCalls, pending)
    | _, _ => (pendingToolCalls, pending)
    end in
  match pending with
  | Some _ =>
      let pendingToolCalls :=
        match function_name tc with
        | Some n =>
            if negb (n =? "")%string
            then Map_update pendingToolCalls (Chunk.index tc) (append_name n)
            else pendingToolCalls
        | None => pendingToolCalls
        end in
      match function_arguments tc with
      | Some a =>
          if negb (a =? "")%string
          then Map_update pendingToolCalls (Chunk.index tc) (append_arguments a)
          else pendingToolCalls
      | None => pendingToolCalls
      end
  | None => pendingToolCalls
  end.

Section Session.

(** [JSON.parse]; [None] when it throws. *)
Variable JSON_parse : string -> option Json.json.

(** [JSON.parse] at the declared type of [chunk], [DeepSeekStreamChunk];
    [None] when [JSON.parse] throws on the payload, which the [catch] of
    the frame logs. *)
Variable JSON_parse_chunk : string -> option Chunk.DeepSeekStreamChunk.

(** Whether the caller gave the optional [onReasoningContent]. *)
Variable hasReasoningCallback : bool.

Variable decoder : TextDecoder.

(** The [try] block of a [data: ] line, after [JSON.parse]. *)
Definition onChunk (pendingToolCalls : PendingToolCalls)
           (chunk : Chunk.DeepSeekStreamChunk)
  : list event * PendingToolCalls :=
  match Chunk.choices chunk with
  | [] => ([], pendingToolCalls)
  | choice :: _ =>
      let d := Chunk.delta choice in
      let reasoning :=
        match Chunk.reasoning_content d with
        | Some r =>
            if negb (r =? "")%string && hasReasoningCallback
            then [onReasoningContent r] else []
        | None => []
        end in
      let text :=
        match Chunk.content d with
        | Some c => if negb (c =? "")%string then [onContent c] else []
        | None => []
        end in
      let pendingToolCalls :=
        match Chunk.tool_calls d with
        | Some tcs => fold_left accumulate tcs pendingToolCalls
        | None => pendingToolCalls
        end in
      match Chunk.finish_reason choice with
      | Some reason =>
          if (reason =? "tool_calls")%string
          then (reasoning ++ text ++ map onToolCall (Map_values pendingToolCalls), [])
          else (reasoning ++ text, pendingToolCalls)
      | None => (reasoning ++ text, pendingToolCalls)
      end
  end.

(** The body of [for (const line of lines)].  The second component is
    [None] when the function returns from inside the loop. *)
Definition onLine (pendingToolCalls : PendingToolCalls) (line : string)
  : list event * option PendingToolCalls :=
  let trimmed := Js.trim line in
  if (trimmed =? "")%string || Js.startsWith trimmed ":" then
    ([], Some pendingToolCalls)
  else if (trimmed =? "data: [DONE]")%string then
    (map onToolCall (Map_values pendingToolCalls) ++ [onDone], None)
  else if Js.startsWith trimmed "data: " then
    let jsonStr := Js.slice 6 trimmed in
    match JSON_parse_chunk jsonStr with
    | Some chunk =>
        let '(events, pendingToolCalls) := onChunk pendingToolCalls chunk in
        (events, Some pendingToolCalls)
    | None => ([], Some pendingToolCalls)
    end
  else ([], Some pendingToolCalls).

Fixpoint onLines (pendingToolCalls : PendingToolCalls) (lines : list string)
  : list event * option PendingToolCalls :=
  match lines with
  | [] => ([], Some pendingToolCalls)
  | line :: rest =>
      match onLine pendingToolCalls line with
      | (events, Some pendingToolCalls) =>
          let '(events', after) := onLines pendingToolCalls rest in
          (events ++ events', after)
      | (events, None) => (events, None)
      end
  end.

(** The [catch] clause. *)
Definition catch (error : thrown) : list event :=
  match error with
  | ThrowError e =>
      if (error_name e =? "AbortError")%string then [onDone] else [onError e]
  | ThrowOther text => [onError {| error_name := "Error"; message := text |}]
  end.

(** The [while (true)] loop, with the statement after it. *)
Fixpoint readLoop (d : decoder_state decoder) (buffer : string)
         (pendingToolCalls : PendingToolCalls) (b : body) : list event :=
  match b with
  | Cancelled => [onDone]
  | Closed => [onDone]
  | ReadFails e => catch e
  | Read value rest =>
      let '(d, decoded) := decode decoder d value in
      let buffer := (buffer ++ decoded)%string in
      let lines := Js.split_lines buffer in
      let buffer := last lines "" in
      match onLines pendingToolCalls (removelast lines) with
      | (events, Some pendingToolCalls) =>
          events ++ readLoop d buffer pendingToolCalls rest
      | (events, None) => events
      end
  end.

(** [errorJson.error?.message || errorJson.message || errorText],
    inside its own [try]: reading a property of [null] throws, and the
    [catch] gives [errorText]. *)
Definition errorMessage (errorText : string) : string :=
  match JSON_parse errorText with
  | None => errorText
  | Some Json.JNull => errorText
  | Some errorJson =>
      let nested :=
        match Json.get errorJson "error" with
        | None | Some Json.JNull => None
        | Some e => Json.get e "message"
        end in
      match nested with
      | Some m =>
          if Json.truthy m then Json.ToString m
          else match Json.get errorJson "message" with
               | Some m' => if Json.truthy m' then Json.ToString m' else errorText
               | None => errorText
               end
      | None =>
          match Json.get errorJson "message" with
          | Some m' => if Json.truthy m' then Json.ToString m' else errorText
          | None => errorText
          end
      end
  end.

Definition apiError (status : nat) (errorMessage : string) : Error :=
  {| error_name := "Error";
     message := ("DeepSeek API error (" ++ NilZero.string_of_uint (Nat.to_uint status)
                 ++ "): " ++ errorMessage)%string |}.

(** [streamChatCompletion], from the outcome of [fetch] on. *)
Definition streamChatCompletion (f : fetched) : list event :=
  match f with
  | FetchFails e => catch e
  | Fetched response =>
      if negb (ok response) then
        match text response with
        | inl e => catch e
        | inr errorText =>
            catch (ThrowError (apiError (status response) (errorMessage errorText)))
        end
      else
        match response_body response with
        | None =>
            catch (ThrowError {| error_name := "Error";
                                 message := "No response body received" |})
        | Some b => readLoop (decoder_new decoder) "" [] b
        end
  end.

End Session.

(** ** A reference instance *)

(** A decoder for streams of one-unit characters: it has nothing to keep
    between chunks. *)
Fixpoint string_of_list_byte_app (v w : list byte) :
  string_of_list_byte (v ++ w)
  = (string_of_list_byte v ++ string_of_list_byte w)%string :=
  match v with
  | [] => eq_refl
  | x :: v' => f_equal (String (ascii_of_byte x)) (string_of_list_byte_app v' w)
  end.

Definition ascii_decoder : TextDecoder :=
  {| decoder_state := unit;
     decoder_new := tt;
     decode := fun d v => (d, string_of_list_byte v);
     decode_nil := fun d => eq_refl;
     decode_app := fun d v w =>
       f_equal (pair d) (string_of_list_byte_app v w) |}.

(** A parsed value seen at the type [DeepSeekStreamChunk]. *)
Module View.
Import Json.

Definition optional {A} (view : json -> option A) (v : option json)
  : option (option A) :=
  match v with
  | None | Some JNull => Some None
  | Some x => match view x with Some a => Some (Some a) | None => None end
  end.

Definition str (v : json) : option string :=
  match v with JStr s => Some s | _ => None end.

Fixpoint all {A} (view : json -> option A) (l : list json) : option (list A) :=
  match l with
  | [] => Some []
  | x :: rest =>
      match view x, all view rest with
      | Some a, Some r => Some (a :: r)
      | _, _ => None
      end
  end.

Definition arr {A} (view : json -> option A) (v : json) : option (list A) :=
  match v with JArr l => all view l | _ => None end.

Definition functionDelta (v : json) : option Chunk.FunctionDelta :=
  match v with
  | JObj _ =>
      match optional str (get v "name"), optional str (get v "arguments") with
      | Some n, Some a => Some {| Chunk.name := n; Chunk.arguments := a |}
      | _, _ => None
      end
  | _ => None
  end.

Definition toolCallDelta (v : json) : option Chunk.ToolCallDelta :=
  match v with
  | JObj _ =>
      match get v "index", optional str (get v "id"),
            optional functionDelta (get v "function") with
      | Some (JNum i), Some oid, Some f =>
          Some {| Chunk.index := i; Chunk.id := oid; Chunk.function := f |}
      | _, _, _ => None
      end
  | _ => None
  end.

Definition delta (v : json) : option Chunk.Delta :=
  match v with
  | JObj _ =>
      match optional str (get v "content"),
            optional str (get v "reasoning_content"),
            optional (arr toolCallDelta) (get v "tool_calls") with
      | Some c, Some r, Some t =>
          Some {| Chunk.content := c; Chunk.reasoning_content := r;
                  Chunk.tool_calls := t |}
      | _, _, _ => None
      end
  | _ => None
  end.

Definition choice (v : json) : option Chunk.Choice :=
  match v with
  | JObj _ =>
      match get v "delta", optional str (get v "finish_reason") with
      | Some d, Some fr =>
          match delta d with
          | Some d' => Some {| Chunk.delta := d'; Chunk.finish_reason := fr |}
          | None => None
          end
      | _, _ => None
      end
  | _ => None
  end.

Definition chunk (v : json) : option Chunk.DeepSeekStreamChunk :=
  match get v "choices" with
  | Some cs =>
      match arr choice cs with
      | Some l => Some {| Chunk.choices := l |}
      | None => None
      end
  | None => None
  end.

Definition parse_chunk (jsonStr : string) : option Chunk.DeepSeekStreamChunk :=
  match Json.parse jsonStr with
  | Some v => chunk v
  | None => None
  end.
End View.

(** The client on wire text: the reference parser, one-unit characters,
    [onReasoningContent] given. *)
Definition run (f : fetched) : list event :=
  streamChatCompletion Json.parse View.parse_chunk true ascii_decoder f.

Definition bytes (s : string) : list byte := list_byte_of_string s.

(** A response that streams the given body script. *)
Definition response_of (status : nat) (b : body) : Response :=
  {| status := status; text := inr ""; response_body := Some b |}.

Definition streaming (b : body) : fetched := Fetched (response_of 200 b).

(** The reads of a list of chunks, then the rest of the script. *)
Definition reads (chunks : list (list byte)) (rest : body) : body :=
  fold_right Read rest chunks.

(** The chunking with one frame a chunk: a chunk ends after each line
    feed, and what follows the last line feed is a chunk of its own. *)
Fixpoint frames (stream : list byte) : list (list byte) :=
  match stream with
  | [] => []
  | x :: rest =>
      if Byte.eqb x x0a then [x] :: frames rest
      else match frames rest with
           | f :: fs => (x :: f) :: fs
           | [] => [[x]]
           end
  end.

End DeepSeekClient.

Import DeepSeekClient.

(* ================================================================== *)
(** * [src/provider.ts] *)

(** The parts of the [vscode] API the provider reads. *)
Module vscode.

Inductive LanguageModelChatMessageRole :=
| User
| Assistant
| OtherRole (value : Z).

(** An element of the [content] of a tool result. *)
Inductive ResultItem :=
| ResultText (value : string)
| ResultOther (value : Json.json).

Inductive Part :=
| LanguageModelTextPart (value : string)
| LanguageModelToolCallPart (callId name : string) (input : Json.json)
| LanguageModelToolResultPart (callId : string) (content : list ResultItem)
| OtherPart (value : Json.json).

Record LanguageModelChatRequestMessage := {
  role : LanguageModelChatMessageRole;
  content : list Part
}.

(** What [progress.report] receives. *)
Inductive LanguageModelResponsePart :=
| ResponseText (value : string)
| ResponseToolCall (callId name : string) (input : Json.json).

End vscode.

(* ================================================================== *)
(** * [src/auth.ts] *)

Module AuthManager.

Definition API_KEY_SECRET : string := "deepseek.apiKey".

(** [vscode.SecretStorage]: what [get] gives for each key, with [store]
    and [delete]. *)
Definition SecretStorage := string -> option string.

Definition store (secretStorage : SecretStorage) (key value : string)
  : SecretStorage :=
  fun k => if (k =? key)%string then Some value else secretStorage k.

Definition delete (secretStorage : SecretStorage) (key : string) : SecretStorage :=
  fun k => if (k =? key)%string then None else secretStorage k.

(** The [deepseek] section of the workspace configuration: what
    [config.get] gives for each setting. *)
Definition WorkspaceConfiguration := string -> option string.

(** [getApiKey]: the secret when it is truthy, else the [apiKey] setting,
    trimmed, when it and its trimmed form are truthy. *)
Definition getApiKey (secretStorage : SecretStorage)
           (config : WorkspaceConfiguration) : option string :=
  if Js.truthy (secretStorage API_KEY_SECRET) then secretStorage API_KEY_SECRET
  else
    match config "apiKey" with
    | Some settingsKey =>
        if negb (settingsKey =? "")%string && negb (Js.trim settingsKey =? "")%string
        then Some (Js.trim settingsKey)
        else None
    | None => None
    end.

Definition setApiKey (secretStorage : SecretStorage) (apiKey : string)
  : SecretStorage :=
  store secretStorage API_KEY_SECRET apiKey.

Definition deleteApiKey (secretStorage : SecretStorage) : SecretStorage :=
  delete secretStorage API_KEY_SECRET.

(** [hasApiKey]: [key !== undefined && key.length > 0]; a text has a
    code unit exactly when it is not empty. *)
Definition hasApiKey (secretStorage : SecretStorage)
           (config : WorkspaceConfiguration) : bool :=
  match getApiKey secretStorage config with
  | Some key => negb (key =? "")%string
  | None => false
  end.

(** The [validateInput] of the input box: the message shown for a value
    it refuses, [None] for a value it accepts. *)
Definition validateInput (value : string) : option string :=
  if (value =? "")%string || (Js.trim value =? "")%string then
    Some "API key cannot be empty"
  else if negb (Js.startsWith value "sk-") then
    Some (Json.wire "API key should start with 'sk-'")
  else None.

(** What [promptForApiKey] leaves and returns: the secrets, the
    information messages shown, the result. *)
Record Prompted := {
  secrets : SecretStorage;
  informed : list string;
  configured : bool
}.

(** [promptForApiKey]; [showInputBox] is what the input box resolves to,
    [None] when the user dismisses it. *)
Definition promptForApiKey (showInputBox : option string)
           (secretStorage : SecretStorage) : Prompted :=
  if Js.truthy showInputBox then
    match showInputBox with
    | Some apiKey =>
        {| secrets := setApiKey secretStorage (Js.trim apiKey);
           informed := ["DeepSeek API key saved successfully"];
           configured := true |}
    | None => {| secrets := secretStorage; informed := []; configured := false |}
    end
  else {| secrets := secretStorage; informed := []; configured := false |}.

Definition getBaseUrl (config : WorkspaceConfiguration) : string :=
  match config "baseUrl" with
  | Some url => if negb (url =? "")%string then url else "https://api.deepseek.com"
  | None => "https://api.deepseek.com"
  end.

End AuthManager.

(* ================================================================== *)
(** * [src/provider.ts]: the catalog and the tools *)

Module Models.

Record Capabilities := { toolCalling : bool; imageInput : bool }.

(** An element of [MODELS], which is also the
    [LanguageModelChatInformation] the provider answers with. *)
Record Model := {
  id : string;
  name : string;
  family : string;
  version : string;
  detail : string;
  maxInputTokens : N;
  maxOutputTokens : N;
  capabilities : Capabilities
}.

Definition MODELS : list Model :=
  [{| id := "deepseek-chat";
      name := "DeepSeek Chat";
      family := "deepseek";
      version := "v3.2";
      detail := "Official";
      maxInputTokens := 128000;
      maxOutputTokens := 8192;
      capabilities := {| toolCalling := true; imageInput := false |} |};
   {| id := "deepseek-reasoner";
      name := "DeepSeek Reasoner";
      family := "deepseek";
      version := "v3.2";
      detail := "Official";
      maxInputTokens := 128000;
      maxOutputTokens := 65536;
      capabilities := {| toolCalling := true; imageInput := false |} |}].

(** [MODELS.find((m) => m.id === id)] *)
Definition find (modelId : string) : option Model :=
  List.find (fun m => (id m =? modelId)%string) MODELS.

End Models.

Module Tools.

(** [vscode.LanguageModelChatTool] *)
Module Chat.
Record LanguageModelChatTool := {
  name : string;
  description : string;
  inputSchema : option Json.json
}.
End Chat.

(** [DeepSeekTool]; its [type] field is the constant ['function']. *)
Record Function := {
  name : string;
  description : option string;
  parameters : option Json.json
}.
Record DeepSeekTool := { function : Function }.

Inductive ToolChoice := none | auto | required.

(** The request [provideLanguageModelChatResponse] gives the client. *)
Record DeepSeekRequest := {
  model : string;
  messages : list DeepSeekMessage;
  tools : option (list DeepSeekTool);
  tool_choice : option ToolChoice
}.

(** [convertTools] *)
Definition convertTools (tools : option (list Chat.LanguageModelChatTool))
  : option (list DeepSeekTool) :=
  match tools with
  | None | Some [] => None
  | Some tools =>
      Some (map (fun tool =>
                   {| function :=
                        {| name := Chat.name tool;
                           description := Some (Chat.description tool);
                           parameters := Chat.inputSchema tool |} |}) tools)
  end.

(** The request of [provideLanguageModelChatResponse]: the tools are
    converted when the model is in the catalog with [toolCalling]. *)
Definition chatRequest (modelId : string) (deepseekMessages : list DeepSeekMessage)
           (optionsTools : option (list Chat.LanguageModelChatTool))
  : DeepSeekRequest :=
  let modelDef := Models.find modelId in
  let tools :=
    match modelDef with
    | Some m =>
        if Models.toolCalling (Models.capabilities m)
        then convertTools optionsTools else None
    | None => None
    end in
  {| model := modelId;
     messages := deepseekMessages;
     tools := tools;
     tool_choice :=
       match tools with
       | Some l => if 0 <? List.length l then Some auto else None
       | None => None
       end |}.

End Tools.

Module Provider.

(** ** The reasoning cache: a [Map<string, string>] *)

Definition ReasoningCache := list (string * string).

Fixpoint Map_get (m : ReasoningCache) (k : string) : option string :=
  match m with
  | [] => None
  | (k', v) :: rest => if (k' =? k)%string then Some v else Map_get rest k
  end.

Fixpoint Map_set (m : ReasoningCache) (k v : string) : ReasoningCache :=
  match m with
  | [] => [(k, v)]
  | (k', v') :: rest =>
      if (k' =? k)%string then (k', v) :: rest else (k', v') :: Map_set rest k v
  end.

Fixpoint Map_delete (m : ReasoningCache) (k : string) : ReasoningCache :=
  match m with
  | [] => []
  | (k', v) :: rest =>
      if (k' =? k)%string then rest else (k', v) :: Map_delete rest k
  end.

Definition Map_keys (m : ReasoningCache) : list string := map fst m.

Definition Map_size (m : ReasoningCache) : nat := List.length m.

Definition Map_clear (m : ReasoningCache) : ReasoningCache := [].

(** ** [mapRole] *)

Definition mapRole (role : vscode.LanguageModelChatMessageRole) : Role :=
  match role with
  | vscode.User => user
  | vscode.Assistant => assistant
  | vscode.OtherRole _ => user
  end.

Section Bridge.

(** [JSON.stringify] on the input of a tool call and on the content of a
    tool result. *)
Variable JSON_stringify : Json.json -> string.
Variable JSON_stringify_content : list vscode.ResultItem -> string.

(** The three accumulators of one turn of the loop over [messages]. *)
Record Collected := {
  text_content : string;
  toolCalls : list DeepSeekToolCall;
  toolResults : list (string * string)
}.

(** The inner loop over the items of a tool result. *)
Definition toolContent (items : list vscode.ResultItem) : string :=
  fold_left (fun acc item =>
               match item with
               | vscode.ResultText value => (acc ++ value)%string
               | vscode.ResultOther _ => acc
               end) items "".

(** The body of [for (const part of message.content)]. *)
Definition collect (acc : Collected) (part : vscode.Part) : Collected :=
  match part with
  | vscode.LanguageModelTextPart value =>
      {| text_content := (text_content acc ++ value)%string;
         toolCalls := toolCalls acc;
         toolResults := toolResults acc |}
  | vscode.LanguageModelToolCallPart callId name input =>
      {| text_content := text_content acc;
         toolCalls := toolCalls acc
                      ++ [{| id := callId;
                             function := {| DeepSeekClient.name := name;
                                            arguments := JSON_stringify input |} |}];
         toolResults := toolResults acc |}
  | vscode.LanguageModelToolResultPart callId items =>
      {| text_content := text_content acc;
         toolCalls := toolCalls acc;
         toolResults := toolResults acc
                        ++ [(callId,
                             if negb (toolContent items =? "")%string
                             then toolContent items
                             else JSON_stringify_content items)] |}
  | vscode.OtherPart _ => acc
  end.

(** The search of the cache by the tool calls of an assistant turn: the
    first truthy hit. *)
Fixpoint cachedReasoning (reasoningCache : ReasoningCache)
         (tcs : list DeepSeekToolCall) : option string :=
  match tcs with
  | [] => None
  | tc :: rest =>
      match Map_get reasoningCache (id tc) with
      | Some cached =>
          if negb (cached =? "")%string then Some cached
          else cachedReasoning reasoningCache rest
      | None => cachedReasoning reasoningCache rest
      end
  end.

Definition toolMessage (tr : string * string) : DeepSeekMessage :=
  {| DeepSeekClient.role := tool;
     DeepSeekClient.content := snd tr;
     tool_call_id := Some (fst tr);
     tool_calls := None;
     reasoning_content := None |}.

(** The body of [for (const message of messages)]: the messages one turn
    pushes on [result]. *)
Definition convertMessage (reasoningCache : ReasoningCache) (isReasoner : bool)
           (message : vscode.LanguageModelChatRequestMessage)
  : list DeepSeekMessage :=
  let role := mapRole (vscode.role message) in
  let c := fold_left collect (vscode.content message)
             {| text_content := ""; toolCalls := []; toolResults := [] |} in
  let primary :=
    match role with
    | assistant =>
        let reasoningContent :=
          if isReasoner then cachedReasoning reasoningCache (toolCalls c) else None in
        [{| DeepSeekClient.role := assistant;
            DeepSeekClient.content := text_content c;
            tool_call_id := None;
            tool_calls := match toolCalls c with
                          | [] => None
                          | _ :: _ => Some (toolCalls c)
                          end;
            reasoning_content :=
              if isReasoner
              then Some (match reasoningContent with Some r => r | None => "" end)
              else None |}]
    | _ =>
        if negb (text_content c =? "")%string
        then [{| DeepSeekClient.role := role;
                 DeepSeekClient.content := text_content c;
                 tool_call_id := None;
                 tool_calls := None;
                 reasoning_content := None |}]
        else []
    end in
  primary ++ map toolMessage (toolResults c).

Definition convertMessages (reasoningCache : ReasoningCache)
           (messages : list vscode.LanguageModelChatRequestMessage)
           (isReasoner : bool) : list DeepSeekMessage :=
  fold_left (fun result message =>
               result ++ convertMessage reasoningCache isReasoner message)
            messages [].

End Bridge.

Section Response.

(** [JSON.parse] on the arguments of a completed tool call. *)
Variable JSON_parse : string -> option Json.json.

(** The identifier [onDone] makes from the clock and a random number. *)
Variable responseId : string.

Variable isReasoner : bool.

Inductive Settled := Resolved | Rejected (error : Error).

(** The state the callbacks of one call share. *)
Record Session := {
  reasoningCache : ReasoningCache;
  currentReasoningContent : string;
  toolCallIds : list string;
  responseMessageId : option string;
  reported : list vscode.LanguageModelResponsePart;
  settled : option Settled
}.

Definition with_cache (s : Session) (c : ReasoningCache) : Session :=
  {| reasoningCache := c;
     currentReasoningContent := currentReasoningContent s;
     toolCallIds := toolCallIds s;
     responseMessageId := responseMessageId s;
     reported := reported s;
     settled := settled s |}.

Definition report (s : Session) (part : vscode.LanguageModelResponsePart) : Session :=
  {| reasoningCache := reasoningCache s;
     currentReasoningContent := currentReasoningContent s;
     toolCallIds := toolCallIds s;
     responseMessageId := responseMessageId s;
     reported := reported s ++ [part];
     settled := settled s |}.

Definition settle (s : Session) (r : Settled) : Session :=
  {| reasoningCache := reasoningCache s;
     currentReasoningContent := currentReasoningContent s;
     toolCallIds := toolCallIds s;
     responseMessageId := responseMessageId s;
     reported := reported s;
     (* a promise settles once *)
     settled := match settled s with Some x => Some x | None => Some r end |}.

Definition handleReasoningContent (s : Session) (content : string) : Session :=
  {| reasoningCache := reasoningCache s;
     currentReasoningContent := (currentReasoningContent s ++ content)%string;
     toolCallIds := toolCallIds s;
     responseMessageId := responseMessageId s;
     reported := reported s;
     settled := settled s |}.

Definition handleToolCall (s : Session) (toolCall : DeepSeekToolCall) : Session :=
  let flush := isReasoner && negb (currentReasoningContent s =? "")%string in
  let s :=
    {| reasoningCache :=
         if flush
         then Map_set (reasoningCache s) (id toolCall) (currentReasoningContent s)
         else reasoningCache s;
       currentReasoningContent := if flush then "" else currentReasoningContent s;
       toolCallIds := toolCallIds s ++ [id toolCall];
       responseMessageId := responseMessageId s;
       reported := reported s;
       settled := settled s |} in
  report s (vscode.ResponseToolCall (id toolCall) (name (function toolCall))
              (match JSON_parse (arguments (function toolCall)) with
               | Some args => args
               | None => Json.JObj []
               end)).

(** The first statement of [onDone]: reasoning that no tool call took is
    stored under an identifier of its own. *)
Definition recordResponse (s : Session) : Session :=
  if isReasoner && negb (currentReasoningContent s =? "")%string then
    {| reasoningCache := Map_set (reasoningCache s) responseId (currentReasoningContent s);
       currentReasoningContent := currentReasoningContent s;
       toolCallIds := toolCallIds s;
       responseMessageId := Some responseId;
       reported := reported s;
       settled := settled s |}
  else s.

(** The second statement of [onDone]: [if (size > 50)], the keys are
    copied and the first [keys.length - 50] of them deleted. *)
Definition evictOverCapacity (reasoningCache : ReasoningCache) : ReasoningCache :=
  if 50 <? Map_size reasoningCache then
    let keys := Map_keys reasoningCache in
    fold_left Map_delete (firstn (List.length keys - 50) keys) reasoningCache
  else reasoningCache.

Definition handleDone (s : Session) : Session :=
  let s := recordResponse s in
  settle (with_cache s (evictOverCapacity (reasoningCache s))) Resolved.

(** The callbacks [provideLanguageModelChatResponse] gives the client. *)
Definition callback (s : Session) (e : event) : Session :=
  match e with
  | onContent content => report s (vscode.ResponseText content)
  | onReasoningContent content => handleReasoningContent s content
  | onToolCall toolCall => handleToolCall s toolCall
  | onError error => settle s (Rejected error)
  | onDone => handleDone s
  end.

(** The state in which the session starts: [this.reasoningCache.clear()]
    has run on the cache the provider held. *)
Definition start (held : ReasoningCache) : Session :=
  {| reasoningCache := Map_clear held;
     currentReasoningContent := "";
     toolCallIds := [];
     responseMessageId := None;
     reported := [];
     settled := None |}.

(** [provideLanguageModelChatResponse] once the key is known: the state
    after the client has delivered [events]. *)
Definition respond (held : ReasoningCache) (events : list event) : Session :=
  fold_left callback events (start held).

End Response.

(** [provideLanguageModelChatResponse]: the error thrown when no key is
    configured, or else the request messages and the state the callbacks
    leave once the client has run on the outcome [f] of [fetch]. *)
Definition provideLanguageModelChatResponse
           (JSON_stringify : Json.json -> string)
           (JSON_stringify_content : list vscode.ResultItem -> string)
           (JSON_parse : string -> option Json.json)
           (JSON_parse_chunk : string -> option Chunk.DeepSeekStreamChunk)
           (decoder : TextDecoder) (responseId : string)
           (apiKey : option string) (held : ReasoningCache) (modelId : string)
           (messages : list vscode.LanguageModelChatRequestMessage) (f : fetched)
  : Error + (list DeepSeekMessage * Session) :=
  if Js.truthy apiKey then
    let isReasoner := (modelId =? "deepseek-reasoner")%string in
    let cleared := Map_clear held in
    let deepseekMessages :=
      convertMessages JSON_stringify JSON_stringify_content cleared messages isReasoner in
    inr (deepseekMessages,
         fold_left (callback JSON_parse responseId isReasoner)
                   (streamChatCompletion JSON_parse JSON_parse_chunk true decoder f)
                   (start held))
  else
    inl {| error_name := "Error";
           message := Json.wire
             "DeepSeek API key not configured. Run 'DeepSeek: Set API Key' command." |}.

(** What [provideLanguageModelChatInformation] leaves and returns: the
    secrets, whether the user was prompted, the models. *)
Record Information := {
  secrets_after : AuthManager.SecretStorage;
  prompted : bool;
  information : list Models.Model
}.

(** [provideLanguageModelChatInformation]; [MODELS.map] copies every
    field of a model. *)
Definition provideLanguageModelChatInformation
           (silent : bool) (showInputBox : option string)
           (secretStorage : AuthManager.SecretStorage)
           (config : AuthManager.WorkspaceConfiguration) : Information :=
  let hasKey := AuthManager.hasApiKey secretStorage config in
  if negb hasKey then
    if silent then
      {| secrets_after := secretStorage; prompted := false; information := [] |}
    else
      let p := AuthManager.promptForApiKey showInputBox secretStorage in
      if negb (AuthManager.configured p) then
        {| secrets_after := AuthManager.secrets p; prompted := true;
           information := [] |}
      else
        {| secrets_after := AuthManager.secrets p; prompted := true;
           information := map (fun model => model) Models.MODELS |}
  else
    {| secrets_after := secretStorage; prompted := false;
       information := map (fun model => model) Models.MODELS |}.

(** [Math.ceil(n / 4)] on a length. *)
Definition ceil_quarter (n : nat) : nat :=
  n / 4 + (if n mod 4 =? 0 then 0 else 1).

(** [provideTokenCount], on a string or on a message. *)
Definition provideTokenCount
           (text : string + vscode.LanguageModelChatRequestMessage) : nat :=
  match text with
  | inl text => Nat.max 1 (ceil_quarter (Js.length text))
  | inr message =>
      let content :=
        fold_left (fun content part =>
                     match part with
                     | vscode.LanguageModelTextPart value => (content ++ value)%string
                     | _ => content
                     end) (vscode.content message) "" in
      Nat.max 1 (ceil_quarter (Js.length content))
  end.

End Provider.

(* ================================================================== *)
(** * Vocabulary of the properties *)

(** The two callbacks that end a session. *)
Definition terminal (e : DeepSeekClient.event) : bool :=
  match e with
  | DeepSeekClient.onDone | DeepSeekClient.onError _ => true
  | _ => false
  end.

(** A thrown value the [catch] clause takes for an abort. *)
Definition aborts (e : DeepSeekClient.thrown) : bool :=
  match e with
  | DeepSeekClient.ThrowError e => (DeepSeekClient.error_name e =? "AbortError")%string
  | DeepSeekClient.ThrowOther _ => false
  end.

(** A body script that ends with a cancellation: the token reports it at
    the head of the loop, or the read in flight rejects with the abort. *)
Fixpoint cancelled (b : DeepSeekClient.body) : bool :=
  match b with
  | DeepSeekClient.Cancelled => true
  | DeepSeekClient.Closed => false
  | DeepSeekClient.ReadFails e => aborts e
  | DeepSeekClient.Read _ rest => cancelled rest
  end.

(** A body script in which no read fails: it ends with the close, with a
    cancellation, or with the abort of the read in flight. *)
Fixpoint body_error_free (b : DeepSeekClient.body) : bool :=
  match b with
  | DeepSeekClient.Cancelled | DeepSeekClient.Closed => true
  | DeepSeekClient.ReadFails e => aborts e
  | DeepSeekClient.Read _ rest => body_error_free rest
  end.

(** A session in which no error occurs: nothing is thrown but an abort,
    the response is [ok] and has a body. *)
Definition error_free (f : DeepSeekClient.fetched) : bool :=
  match f with
  | DeepSeekClient.FetchFails e => aborts e
  | DeepSeekClient.Fetched r =>
      if DeepSeekClient.ok r then
        match DeepSeekClient.response_body r with
        | Some b => body_error_free b
        | None => false
        end
      else
        match DeepSeekClient.text r with
        | inl e => aborts e
        | inr _ => false
        end
  end.

(** A session that reaches the read loop. *)
Definition streams (f : DeepSeekClient.fetched) : bool :=
  match f with
  | DeepSeekClient.FetchFails _ => false
  | DeepSeekClient.Fetched r =>
      DeepSeekClient.ok r
      && match DeepSeekClient.response_body r with Some _ => true | None => false end
  end.

(** The failure a script ends with, when it ends with one: the rejection
    of [fetch], of [response.text()] or of the last read, or the error the
    client itself throws for a response that is not [ok] or has no body. *)
Fixpoint final_throw (b : DeepSeekClient.body) : option DeepSeekClient.thrown :=
  match b with
  | DeepSeekClient.Cancelled | DeepSeekClient.Closed => None
  | DeepSeekClient.ReadFails e => Some e
  | DeepSeekClient.Read _ rest => final_throw rest
  end.

Definition raised (JSON_parse : string -> option Json.json)
           (f : DeepSeekClient.fetched) : option DeepSeekClient.thrown :=
  match f with
  | DeepSeekClient.FetchFails e => Some e
  | DeepSeekClient.Fetched r =>
      if DeepSeekClient.ok r then
        match DeepSeekClient.response_body r with
        | Some b => final_throw b
        | None =>
            Some (DeepSeekClient.ThrowError
                    {| DeepSeekClient.error_name := "Error";
                       DeepSeekClient.message := "No response body received" |})
        end
      else
        match DeepSeekClient.text r with
        | inl e => Some e
        | inr errorText =>
            Some (DeepSeekClient.ThrowError
                    (DeepSeekClient.apiError
                       (DeepSeekClient.status r)
                       (DeepSeekClient.errorMessage JSON_parse errorText)))
        end
  end.

(** A line that never reaches the body of the [try] block: it is blank
    or a comment, or it is not the sentinel and either lacks the [data: ]
    prefix or has a payload on which [JSON.parse] throws. *)
Definition skipped (JSON_parse : string -> option Json.json) (line : string) : bool :=
  let trimmed := Js.trim line in
  if (trimmed =? "")%string || Js.startsWith trimmed ":" then true
  else if (trimmed =? "data: [DONE]")%string then false
  else if Js.startsWith trimmed "data: " then
    match JSON_parse (Js.slice 6 trimmed) with
    | Some _ => false
    | None => true
    end
  else true.

(** The text a content or reasoning callback receives is not empty. *)
Definition carries_text (e : DeepSeekClient.event) : Prop :=
  match e with
  | DeepSeekClient.onContent s | DeepSeekClient.onReasoningContent s => s <> ""
  | _ => True
  end.

(** The completed tool calls a session delivers, in order. *)
Definition delivered (events : list DeepSeekClient.event)
  : list DeepSeekClient.DeepSeekToolCall :=
  flat_map (fun e => match e with
                     | DeepSeekClient.onToolCall tc => [tc]
                     | _ => []
                     end) events.

(** The tool-call fragments of a parsed frame: those of its first choice. *)
Definition fragments (chunk : DeepSeekClient.Chunk.DeepSeekStreamChunk)
  : list DeepSeekClient.Chunk.ToolCallDelta :=
  match DeepSeekClient.Chunk.choices chunk with
  | [] => []
  | choice :: _ =>
      match DeepSeekClient.Chunk.tool_calls (DeepSeekClient.Chunk.delta choice) with
      | Some tcs => tcs
      | None => []
      end
  end.

(** A frame whose first choice ends with the reason [tool_calls]. *)
Definition finishes (chunk : DeepSeekClient.Chunk.DeepSeekStreamChunk) : bool :=
  match DeepSeekClient.Chunk.choices chunk with
  | [] => false
  | choice :: _ =>
      match DeepSeekClient.Chunk.finish_reason choice with
      | Some reason => (reason =? "tool_calls")%string
      | None => false
      end
  end.

Definition at_index (i : Z) (fs : list DeepSeekClient.Chunk.ToolCallDelta)
  : list DeepSeekClient.Chunk.ToolCallDelta :=
  filter (fun f => (DeepSeekClient.Chunk.index f =? i)%Z) fs.

Definition name_text (f : DeepSeekClient.Chunk.ToolCallDelta) : string :=
  match DeepSeekClient.function_name f with Some n => n | None => "" end.

Definition arguments_text (f : DeepSeekClient.Chunk.ToolCallDelta) : string :=
  match DeepSeekClient.function_arguments f with Some a => a | None => "" end.

(** The texts of a list, one after the other, in the order of the list. *)
Definition joined (texts : list string) : string :=
  fold_right String.append "" texts.

(** The completed tool call the fragments [fs] of one index spell. *)
Definition completed (i : string) (fs : list DeepSeekClient.Chunk.ToolCallDelta)
  : DeepSeekClient.DeepSeekToolCall :=
  {| DeepSeekClient.id := i;
     DeepSeekClient.function :=
       {| DeepSeekClient.name := joined (map name_text fs);
          DeepSeekClient.arguments := joined (map arguments_text fs) |} |}.

(** What one fragment does to the entry it reaches: the two guarded
    [+=] of the loop body. *)
Definition absorb (f : DeepSeekClient.Chunk.ToolCallDelta)
           (p : DeepSeekClient.DeepSeekToolCall) : DeepSeekClient.DeepSeekToolCall :=
  let p := if Js.truthy (DeepSeekClient.function_name f)
           then DeepSeekClient.append_name (name_text f) p else p in
  if Js.truthy (DeepSeekClient.function_arguments f)
  then DeepSeekClient.append_arguments (arguments_text f) p else p.

Definition fresh (i : string) : DeepSeekClient.DeepSeekToolCall :=
  {| DeepSeekClient.id := i;
     DeepSeekClient.function :=
       {| DeepSeekClient.name := ""; DeepSeekClient.arguments := "" |} |}.

(** The [try] block over the parsed frames of a stream, one after the
    other. *)
Fixpoint onChunks (hasReasoningCallback : bool)
         (p : DeepSeekClient.PendingToolCalls)
         (chunks : list DeepSeekClient.Chunk.DeepSeekStreamChunk)
  : list DeepSeekClient.event * DeepSeekClient.PendingToolCalls :=
  match chunks with
  | [] => ([], p)
  | chunk :: rest =>
      let '(events, p) := DeepSeekClient.onChunk hasReasoningCallback p chunk in
      let '(events', p) := onChunks hasReasoningCallback p rest in
      (events ++ events', p)
  end.

(** The pending calls of a stream whose calls have the indices 0 and 1
    and whose call 0 is open: the entry of call 0, then that of call 1 once
    it is open. *)
Definition slot (c : option DeepSeekClient.DeepSeekToolCall)
  : DeepSeekClient.PendingToolCalls :=
  match c with
  | Some c => [(1%Z, c)]
  | None => []
  end.

(** What a fragment does at an index that may have no entry yet. *)
Definition opened (o : option DeepSeekClient.DeepSeekToolCall)
           (f : DeepSeekClient.Chunk.ToolCallDelta)
  : option DeepSeekClient.DeepSeekToolCall :=
  match o with
  | Some c => Some (absorb f c)
  | None =>
      match DeepSeekClient.Chunk.id f with
      | Some i => if negb (i =? "")%string then Some (absorb f (fresh i)) else None
      | None => None
      end
  end.

(** What the loop over the lines takes a line for: a line it passes
    over (blank, a comment, no [data: ] prefix, a payload that does not
    parse), the sentinel, or a data frame with its payload. *)
Inductive frame :=
| Ignored
| Sentinel
| Data (chunk : DeepSeekClient.Chunk.DeepSeekStreamChunk).

Definition classify
           (JSON_parse_chunk : string -> option DeepSeekClient.Chunk.DeepSeekStreamChunk)
           (line : string) : frame :=
  let trimmed := Js.trim line in
  if (trimmed =? "")%string || Js.startsWith trimmed ":" then Ignored
  else if (trimmed =? "data: [DONE]")%string then Sentinel
  else if Js.startsWith trimmed "data: " then
    match JSON_parse_chunk (Js.slice 6 trimmed) with
    | Some chunk => Data chunk
    | None => Ignored
    end
  else Ignored.

(** The payloads of the data frames among the lines, in order. *)
Definition payloads
           (JSON_parse_chunk : string -> option DeepSeekClient.Chunk.DeepSeekStreamChunk)
           (lines : list string) : list DeepSeekClient.Chunk.DeepSeekStreamChunk :=
  flat_map (fun line => match classify JSON_parse_chunk line with
                        | Data chunk => [chunk]
                        | _ => []
                        end) lines.

Definition sentinel_free
           (JSON_parse_chunk : string -> option DeepSeekClient.Chunk.DeepSeekStreamChunk)
           (lines : list string) : bool :=
  forallb (fun line => match classify JSON_parse_chunk line with
                       | Sentinel => false
                       | _ => true
                       end) lines.

(** The choice with other tool-call fragments. *)
Definition with_tool_calls (choice : DeepSeekClient.Chunk.Choice)
           (tcs : list DeepSeekClient.Chunk.ToolCallDelta) : DeepSeekClient.Chunk.Choice :=
  {| DeepSeekClient.Chunk.delta :=
       {| DeepSeekClient.Chunk.content :=
            DeepSeekClient.Chunk.content (DeepSeekClient.Chunk.delta choice);
          DeepSeekClient.Chunk.reasoning_content :=
            DeepSeekClient.Chunk.reasoning_content (DeepSeekClient.Chunk.delta choice);
          DeepSeekClient.Chunk.tool_calls := Some tcs |};
     DeepSeekClient.Chunk.finish_reason := DeepSeekClient.Chunk.finish_reason choice |}.

(** The message of a protocol error as the specification words it: the
    [error.message] field of the body read as JSON, else its top-level
    [message] field, else the raw text.  A field counts when it is there
    and truthy. *)
Definition field (v : option Json.json) (key : string) : option Json.json :=
  match v with
  | Some j => Json.get j key
  | None => None
  end.

Definition usable (v : option Json.json) : option string :=
  match v with
  | Some m => if Json.truthy m then Some (Json.ToString m) else None
  | None => None
  end.

Definition extracted (body : option Json.json) (raw : string) : string :=
  match usable (field (field body "error") "message") with
  | Some m => m
  | None =>
      match usable (field body "message") with
      | Some m => m
      | None => raw
      end
  end.

(** The text parts of a turn, one after the other. *)
Definition texts (parts : list vscode.Part) : string :=
  joined (flat_map (fun part => match part with
                                | vscode.LanguageModelTextPart value => [value]
                                | _ => []
                                end) parts).

(** The tool calls of a turn, with their input serialized. *)
Definition calls (JSON_stringify : Json.json -> string) (parts : list vscode.Part)
  : list DeepSeekClient.DeepSeekToolCall :=
  flat_map (fun part =>
              match part with
              | vscode.LanguageModelToolCallPart callId name input =>
                  [{| DeepSeekClient.id := callId;
                      DeepSeekClient.function :=
                        {| DeepSeekClient.name := name;
                           DeepSeekClient.arguments := JSON_stringify input |} |}]
              | _ => []
              end) parts.

(** The tool results of a turn: the reference of each and its text, or
    its serialized content when it has no text. *)
Definition results (JSON_stringify_content : list vscode.ResultItem -> string)
           (parts : list vscode.Part) : list (string * string) :=
  flat_map (fun part =>
              match part with
              | vscode.LanguageModelToolResultPart callId items =>
                  [(callId,
                    if (Provider.toolContent items =? "")%string
                    then JSON_stringify_content items
                    else Provider.toolContent items)]
              | _ => []
              end) parts.

Definition userMessage (content : string) : DeepSeekClient.DeepSeekMessage :=
  {| DeepSeekClient.role := DeepSeekClient.user;
     DeepSeekClient.content := content;
     DeepSeekClient.tool_call_id := None;
     DeepSeekClient.tool_calls := None;
     DeepSeekClient.reasoning_content := None |}.

Definition has_tool_result (parts : list vscode.Part) : bool :=
  existsb (fun part => match part with
                       | vscode.LanguageModelToolResultPart _ _ => true
                       | _ => false
                       end) parts.

(** A run of cache entries: reasoning text, then a completed tool call
    that takes it, for the calls [first], [first + 1], ... *)
Definition entry_key (i : nat) : string :=
  ("call_" ++ NilZero.string_of_uint (Nat.to_uint i))%string.

Definition entry (i : nat) : list DeepSeekClient.event :=
  [DeepSeekClient.onReasoningContent "r";
   DeepSeekClient.onToolCall
     {| DeepSeekClient.id := entry_key i;
        DeepSeekClient.function :=
          {| DeepSeekClient.name := "f"; DeepSeekClient.arguments := "{}" |} |}].

Definition entries (first count : nat) : list DeepSeekClient.event :=
  flat_map entry (seq first count).

(** The assistant wire message of a turn. *)
Definition assistantMessage (isReasoner : bool) (reasoning content : string)
           (toolCalls : list DeepSeekClient.DeepSeekToolCall)
  : DeepSeekClient.DeepSeekMessage :=
  {| DeepSeekClient.role := DeepSeekClient.assistant;
     DeepSeekClient.content := content;
     DeepSeekClient.tool_call_id := None;
     DeepSeekClient.tool_calls :=
       match toolCalls with [] => None | _ :: _ => Some toolCalls end;
     DeepSeekClient.reasoning_content :=
       if isReasoner then Some reasoning else None |}.

(** The shape of a wire message the bridge may emit, by role. *)
Definition well_formed (isReasoner : bool) (m : DeepSeekClient.DeepSeekMessage)
  : Prop :=
  match DeepSeekClient.role m with
  | DeepSeekClient.system => False
  | DeepSeekClient.user =>
      DeepSeekClient.content m <> ""
      /\ DeepSeekClient.tool_call_id m = None
      /\ DeepSeekClient.tool_calls m = None
      /\ DeepSeekClient.reasoning_content m = None
  | DeepSeekClient.assistant =>
      DeepSeekClient.tool_call_id m = None
      /\ DeepSeekClient.tool_calls m <> Some []
      /\ (if isReasoner then DeepSeekClient.reasoning_content m <> None
          else DeepSeekClient.reasoning_content m = None)
  | DeepSeekClient.tool =>
      DeepSeekClient.tool_call_id m <> None
      /\ DeepSeekClient.tool_calls m = None
      /\ DeepSeekClient.reasoning_content m = None
  end.

(** What the callbacks report to [progress] for a list of events. *)
Definition reports_of (JSON_parse : string -> option Json.json)
           (events : list DeepSeekClient.event)
  : list vscode.LanguageModelResponsePart :=
  flat_map (fun e =>
              match e with
              | DeepSeekClient.onContent content => [vscode.ResponseText content]
              | DeepSeekClient.onToolCall toolCall =>
                  [vscode.ResponseToolCall
                     (DeepSeekClient.id toolCall)
                     (DeepSeekClient.name (DeepSeekClient.function toolCall))
                     (match JSON_parse (DeepSeekClient.arguments
                                          (DeepSeekClient.function toolCall)) with
                      | Some args => args
                      | None => Json.JObj []
                      end)]
              | _ => []
              end) events.

(** Whether a text has a line feed. *)
Fixpoint has_LF (s : string) : bool :=
  match s with
  | EmptyString => false
  | String c r => Ascii.eqb c Js.LF || has_LF r
  end.

(* ================================================================== *)
(** * Example streams *)

(** A line of wire text, written with ['] for the double quote, and its
    line feed. *)
Definition line (s : string) : list byte :=
  DeepSeekClient.bytes (Json.wire s) ++ [x0a].

Definition fragment (index : Z) (id name arguments : option string)
  : DeepSeekClient.Chunk.ToolCallDelta :=
  {| DeepSeekClient.Chunk.index := index;
     DeepSeekClient.Chunk.id := id;
     DeepSeekClient.Chunk.function :=
       Some {| DeepSeekClient.Chunk.name := name;
               DeepSeekClient.Chunk.arguments := arguments |} |}.

Definition tool_frame (tcs : option (list DeepSeekClient.Chunk.ToolCallDelta))
           (reason : option string) : DeepSeekClient.Chunk.DeepSeekStreamChunk :=
  {| DeepSeekClient.Chunk.choices :=
       [{| DeepSeekClient.Chunk.delta :=
             {| DeepSeekClient.Chunk.content := None;
                DeepSeekClient.Chunk.reasoning_content := None;
                DeepSeekClient.Chunk.tool_calls := tcs |};
           DeepSeekClient.Chunk.finish_reason := reason |}] |}.

Definition call (id name arguments : string) : DeepSeekClient.DeepSeekToolCall :=
  {| DeepSeekClient.id := id;
     DeepSeekClient.function :=
       {| DeepSeekClient.name := name; DeepSeekClient.arguments := arguments |} |}.

(** A text delta, cut into chunks inside the frame and inside the
    sentinel, and the same bytes in one chunk. *)
Definition hello_in_pieces : list (list byte) :=
  [DeepSeekClient.bytes (Json.wire "data: {'choices':[{'index':0,'delta':{'content':'Hel");
   DeepSeekClient.bytes (Json.wire "lo','reasoning_content':null},'finish_reason':null}]}")
     ++ [x0a; x0a] ++ DeepSeekClient.bytes "data: [DO";
   DeepSeekClient.bytes "NE]" ++ [x0a]].

Definition hello_at_once : list (list byte) :=
  [line "data: {'choices':[{'index':0,'delta':{'content':'Hello','reasoning_content':null},'finish_reason':null}]}"
   ++ [x0a] ++ line "data: [DONE]"].

(** One complete tool call in one delta, with no finish reason. *)
Definition one_call : list byte :=
  line "data: {'choices':[{'index':0,'delta':{'tool_calls':[{'index':0,'id':'call_1','type':'function','function':{'name':'get_time','arguments':'{}'}}]},'finish_reason':null}]}".

(** Two tool calls, each in three deltas, call 0 opened first; a comment
    and blank lines between the frames. *)
Definition two_calls : list string :=
  map Json.wire
    [": keep-alive";
     "data: {'choices':[{'index':0,'delta':{'tool_calls':[{'index':0,'id':'call_a','function':{'name':'get_','arguments':''}}]},'finish_reason':null}]}";
     "";
     "data: {'choices':[{'index':0,'delta':{'tool_calls':[{'index':1,'id':'call_b','function':{'name':'get_','arguments':'{'}}]},'finish_reason':null}]}";
     "";
     "data: {'choices':[{'index':0,'delta':{'tool_calls':[{'index':0,'function':{'name':'weather','arguments':'{'}},{'index':1,'function':{'name':'time'}}]},'finish_reason':null}]}";
     "";
     "data: {'choices':[{'index':0,'delta':{'tool_calls':[{'index':0,'function':{'arguments':'}'}},{'index':1,'function':{'arguments':'}'}}]},'finish_reason':'tool_calls'}]}"].

Definition two_calls_chunks : list DeepSeekClient.Chunk.DeepSeekStreamChunk :=
  [tool_frame (Some [fragment 0 (Some "call_a") (Some "get_") (Some "")]) None;
   tool_frame (Some [fragment 1 (Some "call_b") (Some "get_") (Some "{")]) None;
   tool_frame (Some [fragment 0 None (Some "weather") (Some "{");
                     fragment 1 None (Some "time") None]) None].

Definition two_calls_final : DeepSeekClient.Chunk.DeepSeekStreamChunk :=
  tool_frame (Some [fragment 0 None None (Some "}");
                    fragment 1 None None (Some "}")]) (Some "tool_calls").

(** Two tool calls at the indices 0 and 1, in several deltas: call 1 is
    opened first, and the first fragment of call 0 comes without the id. *)
Definition two_calls_out_of_order : list byte :=
  line "data: {'choices':[{'index':0,'delta':{'tool_calls':[{'index':0,'function':{'name':'get_'}}]},'finish_reason':null}]}"
  ++ line "data: {'choices':[{'index':0,'delta':{'tool_calls':[{'index':1,'id':'call_b','function':{'name':'get_time'}}]},'finish_reason':null}]}"
  ++ line "data: {'choices':[{'index':0,'delta':{'tool_calls':[{'index':0,'id':'call_a','function':{'name':'weather','arguments':'{'}}]},'finish_reason':null}]}"
  ++ line "data: {'choices':[{'index':0,'delta':{'tool_calls':[{'index':0,'function':{'arguments':'}'}},{'index':1,'function':{'arguments':'{}'}}]},'finish_reason':null}]}"
  ++ line "data: {'choices':[{'index':0,'delta':{},'finish_reason':'tool_calls'}]}".

(** A user turn that answers a tool call and has no text. *)
Definition tool_answer : vscode.LanguageModelChatRequestMessage :=
  {| vscode.role := vscode.User;
     vscode.content :=
       [vscode.LanguageModelToolResultPart "call_1" [vscode.ResultText "42"]] |}.

(* ================================================================== *)
(** * Properties *)

Import DeepSeekClient.

(** ** Strings and lines *)

Lemma append_nil_r (s : string) : (s ++ "")%string = s.
Proof. induction s as [|c s IH]; simpl; [reflexivity | now rewrite IH]. Qed.

Lemma append_assoc (a b c : string) :
  ((a ++ b) ++ c)%string = (a ++ (b ++ c))%string.
Proof. induction a as [|x a IH]; simpl; [reflexivity | now rewrite IH]. Qed.

Lemma split_lines_cons (s : string) :
  exists h t, Js.split_lines s = h :: t.
Proof.
  induction s as [|c s [h [t IH]]]; simpl.
  - now exists "", [].
  - destruct (Ascii.eqb c Js.LF); [now eauto|].
    rewrite IH. now eauto.
Qed.

(** Splitting a text that arrives in two pieces: the complete lines of the
    first piece, then the lines of what the first piece left unfinished
    followed by the second piece. *)
Lemma split_lines_app (a b : string) :
  Js.split_lines (a ++ b)%string
  = removelast (Js.split_lines a)
    ++ Js.split_lines (last (Js.split_lines a) "" ++ b)%string.
Proof.
  induction a as [|c a IH]; [reflexivity|].
  simpl. destruct (Ascii.eqb c Js.LF) eqn:E.
  - rewrite IH. destruct (split_lines_cons a) as [h [t Ha]]. now rewrite Ha.
  - rewrite IH. destruct (split_lines_cons a) as [h [t Ha]]. rewrite Ha.
    destruct t as [|h' t'].
    + simpl. rewrite E. reflexivity.
    + reflexivity.
Qed.

Lemma last_app_nonempty {A} (l1 l2 : list A) (d : A) :
  l2 <> [] -> last (l1 ++ l2) d = last l2 d.
Proof.
  intros H. induction l1 as [|x l1 IH]; [reflexivity|].
  simpl. destruct (l1 ++ l2) eqn:E; [|exact IH].
  apply app_eq_nil in E. now destruct E.
Qed.

Section ClientFacts.

Variable JSON_parse : string -> option Json.json.
Variable JSON_parse_chunk : string -> option Chunk.DeepSeekStreamChunk.
Variable hasReasoningCallback : bool.
Variable decoder : TextDecoder.

Local Abbreviation onLines := (onLines JSON_parse_chunk hasReasoningCallback).
Local Abbreviation onLine := (onLine JSON_parse_chunk hasReasoningCallback).
Local Abbreviation readLoop := (readLoop JSON_parse_chunk hasReasoningCallback decoder).
Local Abbreviation client := (streamChatCompletion JSON_parse JSON_parse_chunk
                      hasReasoningCallback decoder).

(** ** Chunk boundaries *)

Lemma onLines_app (p : PendingToolCalls) (l1 l2 : list string) :
  onLines p (l1 ++ l2)
  = match onLines p l1 with
    | (events, Some p') =>
        let '(events', after) := onLines p' l2 in (events ++ events', after)
    | (events, None) => (events, None)
    end.
Proof.
  revert p. induction l1 as [|l l1 IH]; intros p; simpl.
  - now destruct (onLines p l2).
  - destruct (onLine p l) as [e [p'|]]; [|reflexivity].
    rewrite IH. destruct (onLines p' l1) as [e1 [p1|]]; [|reflexivity].
    destruct (onLines p1 l2) as [e2 o2]. now rewrite app_assoc.
Qed.

(** Two reads in a row do what one read of the two chunks together does. *)
Lemma readLoop_merge d buffer p (v w : list byte) (rest : body) :
  readLoop d buffer p (Read v (Read w rest))
  = readLoop d buffer p (Read (v ++ w) rest).
Proof.
  cbn [DeepSeekClient.readLoop].
  rewrite (decode_app decoder d v w).
  destruct (decode decoder d v) as [d1 s1]. cbn [fst snd].
  destruct (decode decoder d1 w) as [d2 s2]. cbn [fst snd].
  rewrite <- append_assoc.
  rewrite (split_lines_app (buffer ++ s1) s2).
  set (L1 := Js.split_lines (buffer ++ s1)).
  set (L2 := Js.split_lines (last L1 "" ++ s2)).
  assert (HL2 : L2 <> []).
  { subst L2. destruct (split_lines_cons (last L1 "" ++ s2)) as [h [t H]].
    rewrite H. discriminate. }
  rewrite (last_app_nonempty _ _ _ HL2).
  rewrite (removelast_app _ HL2), onLines_app.
  destruct (onLines p (removelast L1)) as [e1 [p1|]]; [|reflexivity].
  destruct (onLines p1 (removelast L2)) as [e2 [p2|]].
  - now rewrite app_assoc.
  - reflexivity.
Qed.

Lemma readLoop_reads d buffer p (v : list byte) chunks rest :
  readLoop d buffer p (Read v (reads chunks rest))
  = readLoop d buffer p (Read (v ++ List.concat chunks) rest).
Proof.
  revert v. induction chunks as [|w chunks IH]; intros v.
  - cbn [reads fold_right List.concat]. now rewrite app_nil_r.
  - cbn [reads fold_right List.concat]. rewrite readLoop_merge.
    fold (reads chunks rest). rewrite IH, app_assoc.
    reflexivity.
Qed.

(** A fresh loop reads an empty chunk without effect. *)
Lemma readLoop_start_nil p rest :
  readLoop (decoder_new decoder) "" p (Read [] rest)
  = readLoop (decoder_new decoder) "" p rest.
Proof.
  cbn [DeepSeekClient.readLoop]. rewrite decode_nil. reflexivity.
Qed.

Lemma readLoop_start_reads p chunks rest :
  readLoop (decoder_new decoder) "" p (reads chunks rest)
  = readLoop (decoder_new decoder) "" p (Read (List.concat chunks) rest).
Proof.
  destruct chunks as [|v chunks].
  - cbn [reads fold_right List.concat]. now rewrite readLoop_start_nil.
  - cbn [reads fold_right List.concat]. apply readLoop_reads.
Qed.

Lemma concat_frames (stream : list byte) : List.concat (frames stream) = stream.
Proof.
  induction stream as [|x rest IH]; [reflexivity|].
  simpl. destruct (Byte.eqb x x0a).
  - simpl. now rewrite IH.
  - destruct (frames rest) as [|f fs]; simpl in *.
    + now rewrite <- IH.
    + now rewrite <- IH.
Qed.

(** C1. The callbacks and their arguments depend on the bytes of the
    stream and not on how reads cut them into chunks: two chunkings of
    the same bytes give the same session, and so every chunking gives the
    session of the chunking with one frame a chunk.  The decoder is any
    streaming decoder; what follows the chunks in the script (the close,
    a failure, a cancellation, further reads) is arbitrary. *)
Theorem chunking_does_not_change_the_callbacks :
  (forall (status : nat) (chunks1 chunks2 : list (list byte)) (rest : body),
      List.concat chunks1 = List.concat chunks2 ->
      client (Fetched (response_of status (reads chunks1 rest)))
      = client (Fetched (response_of status (reads chunks2 rest))))
  /\ (forall (status : nat) (chunks : list (list byte)) (rest : body),
      client (Fetched (response_of status (reads chunks rest)))
      = client (Fetched (response_of status (reads (frames (List.concat chunks)) rest)))).
Proof.
  assert (H : forall status chunks1 chunks2 rest,
             List.concat chunks1 = List.concat chunks2 ->
             client (Fetched (response_of status (reads chunks1 rest)))
             = client (Fetched (response_of status (reads chunks2 rest)))).
  { intros st chunks1 chunks2 rest Hc.
    unfold streamChatCompletion, response_of.
    cbn [ok DeepSeekClient.status text response_body].
    destruct (negb _); [reflexivity|].
    now rewrite !readLoop_start_reads, Hc. }
  split; [exact H|].
  intros. apply H. now rewrite concat_frames.
Qed.

(** ** Termination of a session *)

Local Abbreviation quiet := (Forall (fun e => terminal e = false)).

Lemma quiet_tool_calls (l : list DeepSeekToolCall) : quiet (map onToolCall l).
Proof. induction l; simpl; constructor; auto. Qed.

Lemma onChunk_quiet p chunk :
  quiet (fst (onChunk hasReasoningCallback p chunk)).
Proof.
  unfold onChunk. destruct (Chunk.choices chunk) as [|choice _]; [constructor|].
  set (reasoning := match Chunk.reasoning_content _ with Some _ => _ | None => _ end).
  set (content := match Chunk.content _ with Some _ => _ | None => _ end).
  assert (Hr : quiet reasoning).
  { subst reasoning. destruct (Chunk.reasoning_content _) as [r|]; [|constructor].
    destruct (_ && _); repeat constructor. }
  assert (Hc : quiet content).
  { subst content. destruct (Chunk.content _) as [c|]; [|constructor].
    destruct (negb _); repeat constructor. }
  destruct (Chunk.finish_reason choice) as [reason|]; cbn [fst].
  - destruct (reason =? "tool_calls")%string; cbn [fst];
      repeat (apply Forall_app; split); auto using quiet_tool_calls.
  - apply Forall_app; split; auto.
Qed.

(** A line either leaves the loop running, without a terminal callback,
    or is the sentinel: the pending tool calls, then [onDone]. *)
Lemma onLine_shape p line :
  match onLine p line with
  | (events, Some _) => quiet events
  | (events, None) => events = map onToolCall (Map_values p) ++ [onDone]
  end.
Proof.
  unfold DeepSeekClient.onLine.
  destruct (_ || _); [constructor|].
  destruct (_ =? "data: [DONE]")%string; [reflexivity|].
  destruct (Js.startsWith _ "data: "); [|constructor].
  destruct (JSON_parse_chunk _) as [chunk|]; [|constructor].
  pose proof (onChunk_quiet p chunk) as H.
  destruct (onChunk hasReasoningCallback p chunk) as [events p']. exact H.
Qed.

Lemma onLines_shape p lines :
  match onLines p lines with
  | (events, Some _) => quiet events
  | (events, None) => exists before, events = before ++ [onDone] /\ quiet before
  end.
Proof.
  revert p. induction lines as [|line lines IH]; intros p; simpl; [constructor|].
  pose proof (onLine_shape p line) as H.
  destruct (onLine p line) as [e [p'|]].
  - specialize (IH p'). destruct (onLines p' lines) as [e' [p''|]].
    + apply Forall_app; auto.
    + destruct IH as [before [-> Hb]]. exists (e ++ before).
      rewrite app_assoc. split; [reflexivity|]. apply Forall_app; auto.
  - exists (map onToolCall (Map_values p)). split; [exact H|].
    apply quiet_tool_calls.
Qed.

Lemma catch_shape e :
  catch e = [onDone] \/ exists err, catch e = [onError err].
Proof.
  destruct e as [err|text]; simpl; [|right; eauto].
  destruct (_ =? _)%string; [left|right]; eauto.
Qed.

Lemma readLoop_shape (b : body) : forall d buffer p,
  exists before, quiet before /\
    (readLoop d buffer p b = before ++ [onDone]
     \/ exists err, readLoop d buffer p b = before ++ [onError err]).
Proof.
  induction b as [| |e|v rest IH]; intros d buffer p.
  - exists []. split; [constructor|now left].
  - exists []. split; [constructor|now left].
  - exists []. split; [constructor|]. apply catch_shape.
  - cbn [DeepSeekClient.readLoop].
    destruct (decode decoder d v) as [d' decoded].
    pose proof (onLines_shape p
                  (removelast (Js.split_lines (buffer ++ decoded)))) as H.
    destruct (onLines p _) as [events [p'|]].
    + destruct (IH d' (last (Js.split_lines (buffer ++ decoded)) "") p')
        as [before [Hq Hr]].
      exists (events ++ before). split; [apply Forall_app; auto|].
      destruct Hr as [-> | [err ->]]; [left | right; exists err];
        now rewrite app_assoc.
    + destruct H as [before [-> Hq]]. exists before. split; [exact Hq | now left].
Qed.

Lemma catch_error e before err :
  catch e = before ++ [onError err] ->
  before = [] /\ aborts e = false /\ catch e = [onError err].
Proof.
  destruct e as [x|t]; cbn [catch aborts].
  - destruct (error_name x =? "AbortError")%string; intros H;
      apply (app_inj_tail [] before) in H; destruct H as [<- H];
      [discriminate | now injection H as ->].
  - intros H. apply (app_inj_tail [] before) in H. destruct H as [<- H].
    now injection H as <-.
Qed.

Lemma catch_without_abort e :
  aborts e = false -> exists err, catch e = [onError err].
Proof.
  destruct e as [x|t]; cbn [catch aborts]; [|eauto].
  intros ->. eauto.
Qed.

(** A body in which no read fails ends with [onDone]. *)
Lemma readLoop_error_free (b : body) : forall d buffer p,
  body_error_free b = true ->
  exists before, quiet before /\ readLoop d buffer p b = before ++ [onDone].
Proof.
  induction b as [| |e|v rest IH]; intros d buffer p Hc.
  - exists []. split; [constructor|reflexivity].
  - exists []. split; [constructor|reflexivity].
  - exists []. split; [constructor|]. cbn [DeepSeekClient.readLoop].
    destruct e as [x|t]; cbn [body_error_free aborts] in Hc; [|discriminate].
    cbn [catch]. now rewrite Hc.
  - cbn [DeepSeekClient.readLoop].
    destruct (decode decoder d v) as [d' decoded].
    pose proof (onLines_shape p
                  (removelast (Js.split_lines (buffer ++ decoded)))) as H.
    destruct (onLines p _) as [events [p'|]].
    + destruct (IH d' (last (Js.split_lines (buffer ++ decoded)) "") p' Hc)
        as [before [Hq ->]].
      exists (events ++ before). split; [apply Forall_app; auto|].
      now rewrite app_assoc.
    + destruct H as [before [-> Hq]]. now exists before.
Qed.

(** An [onError] that ends the read loop is the [catch] of the read that
    failed. *)
Lemma readLoop_error_origin (b : body) : forall d buffer p before err,
  readLoop d buffer p b = before ++ [onError err] ->
  exists e, final_throw b = Some e /\ aborts e = false /\ catch e = [onError err].
Proof.
  induction b as [| |e|v rest IH]; intros d buffer p before err H.
  - apply (app_inj_tail [] before) in H. now destruct H.
  - apply (app_inj_tail [] before) in H. now destruct H.
  - cbn [DeepSeekClient.readLoop] in H. exists e.
    destruct (catch_error _ _ _ H) as [_ [A C]]. now repeat split.
  - cbn [DeepSeekClient.readLoop final_throw] in H |- *.
    destruct (decode decoder d v) as [d' decoded].
    pose proof (onLines_shape p
                  (removelast (Js.split_lines (buffer ++ decoded)))) as S.
    destruct (onLines p _) as [events [p'|]].
    + destruct (readLoop_shape rest d' (last (Js.split_lines (buffer ++ decoded)) "") p')
        as [before' [_ [E | [err' E]]]]; rewrite E, app_assoc in H;
        apply app_inj_tail in H; destruct H as [_ H]; [discriminate|].
      injection H as ->. now apply (IH _ _ _ _ _ E).
    + destruct S as [before' [-> _]].
      apply app_inj_tail in H. now destruct H.
Qed.

(** C3. Every session ends with exactly one of [onDone] and [onError],
    and that callback is the last one invoked: the callbacks before it are
    content, reasoning and tool-call callbacks only.  A session in which
    no error occurs (nothing is thrown but an abort, the response is [ok]
    and has a body, no read fails) ends with [onDone].  A session that
    ends with [onError] ends with the error of the failure its script ends
    with, which is not an abort; and an error before the read loop gives
    [onError] as the only callback. *)
Theorem exactly_one_terminal_callback (f : fetched) :
  (exists before,
      Forall (fun e => terminal e = false) before /\
      (client f = before ++ [onDone]
       \/ exists err, client f = before ++ [onError err]))
  /\ (error_free f = true ->
      exists before,
        Forall (fun e => terminal e = false) before /\
        client f = before ++ [onDone])
  /\ (forall before err,
        client f = before ++ [onError err] ->
        exists e,
          raised JSON_parse f = Some e /\ aborts e = false
          /\ catch e = [onError err])
  /\ (error_free f = false -> streams f = false ->
      exists err, client f = [onError err]).
Proof.
  split; [|split; [|split]].
  - unfold streamChatCompletion.
    assert (C : forall e, exists before,
                 quiet before /\
                 (catch e = before ++ [onDone]
                  \/ exists err, catch e = before ++ [onError err])).
    { intros e. exists []. split; [constructor|]. apply catch_shape. }
    destruct f as [e|r]; [apply C|].
    destruct (negb (ok r)).
    + destruct (text r); apply C.
    + destruct (response_body r) as [b|]; [apply readLoop_shape | apply C].
  - unfold streamChatCompletion, error_free.
    assert (C : forall e, aborts e = true ->
                 exists before, quiet before /\ catch e = before ++ [onDone]).
    { intros e H. exists []. split; [constructor|].
      destruct e as [x|t]; cbn [aborts catch] in *; [now rewrite H | discriminate]. }
    destruct f as [e|r]; [apply C|].
    destruct (ok r); cbn [negb].
    + destruct (response_body r) as [b|]; [|discriminate].
      apply readLoop_error_free.
    + destruct (text r) as [e|t]; [apply C | discriminate].
  - unfold streamChatCompletion, raised. intros before err.
    assert (C : forall e, catch e = before ++ [onError err] ->
                 exists e', Some e = Some e' /\ aborts e' = false
                            /\ catch e' = [onError err]).
    { intros e H. exists e. destruct (catch_error _ _ _ H) as [_ [A E]].
      now repeat split. }
    destruct f as [e|r]; [apply C|].
    destruct (ok r); cbn [negb].
    + destruct (response_body r) as [b|]; [apply readLoop_error_origin | apply C].
    + destruct (text r) as [e|t]; apply C.
  - unfold streamChatCompletion, error_free, streams.
    destruct f as [e|r]; [intros H _; now apply catch_without_abort|].
    destruct (ok r); cbn [negb andb].
    + destruct (response_body r) as [b|]; [discriminate|].
      intros _ _. now apply catch_without_abort.
    + destruct (text r) as [e|t]; intros H _; now apply catch_without_abort.
Qed.

(** ** Cancellation *)

Lemma catch_aborts e : aborts e = true -> catch e = [onDone].
Proof.
  destruct e as [err|text]; simpl; [|discriminate].
  now intros ->.
Qed.

Lemma readLoop_cancelled (b : body) : forall d buffer p,
  cancelled b = true ->
  exists before, quiet before /\ readLoop d buffer p b = before ++ [onDone].
Proof.
  induction b as [| |e|v rest IH]; intros d buffer p Hc.
  - exists []. split; [constructor|reflexivity].
  - discriminate.
  - exists []. split; [constructor|]. now apply catch_aborts.
  - cbn [DeepSeekClient.readLoop].
    destruct (decode decoder d v) as [d' decoded].
    pose proof (onLines_shape p
                  (removelast (Js.split_lines (buffer ++ decoded)))) as H.
    destruct (onLines p _) as [events [p'|]].
    + destruct (IH d' (last (Js.split_lines (buffer ++ decoded)) "") p' Hc)
        as [before [Hq ->]].
      exists (events ++ before). split; [apply Forall_app; auto|].
      now rewrite app_assoc.
    + destruct H as [before [-> Hq]]. now exists before.
Qed.

(** C4. A session cancelled while the body streams ends with [onDone] and
    never invokes [onError]: both when the token reports the cancellation
    at the head of the loop and when the read in flight rejects with the
    abort; everything before the final [onDone] is a content, reasoning
    or tool-call callback. *)
Theorem cancellation_completes_the_session (r : Response) (b : body) :
  ok r = true ->
  response_body r = Some b ->
  cancelled b = true ->
  exists before,
    client (Fetched r) = before ++ [onDone]
    /\ Forall (fun e => terminal e = false) before
    /\ (forall err, ~ In (onError err) (client (Fetched r))).
Proof.
  intros Hok Hb Hc. unfold streamChatCompletion. rewrite Hok, Hb. cbn [negb].
  destruct (readLoop_cancelled b (decoder_new decoder) "" [] Hc)
    as [before [Hq ->]].
  exists before. split; [reflexivity|]. split; [exact Hq|].
  intros err Hin. apply in_app_or in Hin. destruct Hin as [Hin|[Hin|[]]].
  - rewrite Forall_forall in Hq. now specialize (Hq _ Hin).
  - discriminate.
Qed.

(** ** Protocol errors *)

Lemma errorMessage_extracted (errorText : string) :
  errorMessage JSON_parse errorText = extracted (JSON_parse errorText) errorText.
Proof.
  unfold errorMessage, extracted, field, usable.
  destruct (JSON_parse errorText) as [j|]; [|reflexivity].
  destruct j as [|b|n|t|l|ms]; try reflexivity.
  cbn [Json.get].
  destruct (Json.member "error" ms) as [e|];
    [destruct e as [|b|n|t|l|ms']; cbn [Json.get]|];
    repeat match goal with
           | |- context [match Json.member ?k ?m with _ => _ end] =>
               destruct (Json.member k m)
           | |- context [if Json.truthy ?m then _ else _] =>
               destruct (Json.truthy m)
           end;
    reflexivity.
Qed.

(** C5. A response whose status is outside 200..299, and whose body text
    could be read, ends the session with one [onError] and nothing else.
    The message of the error is the fixed prefix with the status followed,
    unchanged, by the text taken from the [error.message] field of the
    JSON body, else from its top-level [message] field, else by the raw
    body; so a body that parses to an object whose [error.message] is
    [bad key] surfaces that text verbatim. *)
Theorem protocol_error_message (r : Response) (errorText : string) :
  ok r = false ->
  text r = inr errorText ->
  client (Fetched r)
  = [onError {| error_name := "Error";
                message := ("DeepSeek API error ("
                            ++ NilZero.string_of_uint (Nat.to_uint (status r))
                            ++ "): "
                            ++ extracted (JSON_parse errorText) errorText)%string |}]
  /\ (JSON_parse errorText
       = Some (Json.JObj [("error", Json.JObj [("message", Json.JStr "bad key")])]) ->
      extracted (JSON_parse errorText) errorText = "bad key").
Proof.
  intros Hok Ht. split.
  - unfold streamChatCompletion. rewrite Hok, Ht. cbn [negb].
    now rewrite errorMessage_extracted.
  - now intros ->.
Qed.

(** ** Text of the content callbacks *)

Lemma onChunk_carries_text p chunk :
  Forall carries_text (fst (onChunk hasReasoningCallback p chunk)).
Proof.
  unfold onChunk. destruct (Chunk.choices chunk) as [|choice _]; [constructor|].
  set (reasoning := match Chunk.reasoning_content _ with Some _ => _ | None => _ end).
  set (content := match Chunk.content _ with Some _ => _ | None => _ end).
  assert (Hr : Forall carries_text reasoning).
  { subst reasoning. destruct (Chunk.reasoning_content _) as [r|]; [|constructor].
    destruct (r =? "")%string eqn:E; cbn [negb andb]; [constructor|].
    destruct hasReasoningCallback; repeat constructor.
    simpl. intros ->. now rewrite String.eqb_refl in E. }
  assert (Hc : Forall carries_text content).
  { subst content. destruct (Chunk.content _) as [c|]; [|constructor].
    destruct (c =? "")%string eqn:E; cbn [negb]; repeat constructor.
    simpl. intros ->. now rewrite String.eqb_refl in E. }
  assert (Ht : forall l, Forall carries_text (map onToolCall l)).
  { induction l; simpl; constructor; simpl; auto. }
  destruct (Chunk.finish_reason choice) as [reason|]; cbn [fst].
  - destruct (reason =? "tool_calls")%string; cbn [fst];
      repeat (apply Forall_app; split); auto.
  - apply Forall_app; split; auto.
Qed.

Lemma onLines_carries_text p lines :
  Forall carries_text (fst (onLines p lines)).
Proof.
  revert p. induction lines as [|line lines IH]; intros p; simpl; [constructor|].
  assert (H : Forall carries_text (fst (onLine p line))).
  { unfold DeepSeekClient.onLine.
    destruct (_ || _); [constructor|].
    destruct (_ =? "data: [DONE]")%string.
    - cbn [fst]. apply Forall_app. split; [|repeat constructor].
      induction (Map_values p); simpl; constructor; simpl; auto.
    - destruct (Js.startsWith _ "data: "); [|constructor].
      destruct (JSON_parse_chunk _) as [chunk|]; [|constructor].
      pose proof (onChunk_carries_text p chunk) as H.
      now destruct (onChunk hasReasoningCallback p chunk). }
  destruct (onLine p line) as [e [p'|]]; [|exact H].
  specialize (IH p'). destruct (onLines p' lines) as [e' after].
  cbn [fst] in *. apply Forall_app; auto.
Qed.

Lemma catch_carries_text e : Forall carries_text (catch e).
Proof.
  destruct e as [err|t]; simpl; [|repeat constructor].
  destruct (_ =? _)%string; repeat constructor.
Qed.

Lemma readLoop_carries_text (b : body) : forall d buffer p,
  Forall carries_text (readLoop d buffer p b).
Proof.
  induction b as [| |e|v rest IH]; intros d buffer p;
    try (repeat constructor; fail).
  - apply catch_carries_text.
  - cbn [DeepSeekClient.readLoop].
    destruct (decode decoder d v) as [d' decoded].
    pose proof (onLines_carries_text p
                  (removelast (Js.split_lines (buffer ++ decoded)))) as H.
    destruct (onLines p _) as [events [p'|]]; cbn [fst] in H; [|exact H].
    apply Forall_app; auto.
Qed.

(** C9. The content and the reasoning callback only ever receive a
    string that is not empty; and a delta whose [content]
    ([reasoning_content]) is absent or empty invokes no content
    (reasoning) callback at all. *)
Theorem content_callbacks_receive_text :
  (forall f : fetched, Forall carries_text (client f))
  /\ (forall p chunk choice others,
        Chunk.choices chunk = choice :: others ->
        (Chunk.content (Chunk.delta choice) = None
         \/ Chunk.content (Chunk.delta choice) = Some "" ->
         forall s, ~ In (onContent s) (fst (onChunk hasReasoningCallback p chunk)))
        /\ (Chunk.reasoning_content (Chunk.delta choice) = None
            \/ Chunk.reasoning_content (Chunk.delta choice) = Some "" ->
            forall s,
              ~ In (onReasoningContent s) (fst (onChunk hasReasoningCallback p chunk)))).
Proof.
  split.
  - intros f. unfold streamChatCompletion.
    destruct f as [e|r]; [apply catch_carries_text|].
    destruct (negb (ok r)).
    + destruct (text r); apply catch_carries_text.
    + destruct (response_body r); [apply readLoop_carries_text|].
      apply catch_carries_text.
  - intros p chunk choice others Hch.
    assert (Ht : forall (s : string) l e,
               In e (map onToolCall l) -> e <> onContent s /\ e <> onReasoningContent s).
    { intros s l e Hin. apply in_map_iff in Hin. destruct Hin as [tc [<- _]].
      split; discriminate. }
    unfold onChunk. rewrite Hch.
    split; intros Habs s Hin.
    + assert (E : match Chunk.content (Chunk.delta choice) with
                  | Some c => if negb (c =? "")%string then [onContent c] else []
                  | None => []
                  end = []) by (destruct Habs as [-> | ->]; reflexivity).
      rewrite E in Hin. clear E Habs.
      destruct (Chunk.reasoning_content (Chunk.delta choice)) as [rc|];
        [destruct (negb (rc =? "")%string && hasReasoningCallback)|];
        destruct (Chunk.finish_reason choice) as [reason|];
        try destruct (reason =? "tool_calls")%string;
        cbn [fst app] in Hin;
        repeat match goal with
               | H : In _ (_ :: _) |- _ => destruct H as [H|H]; [discriminate|]
               | H : In _ [] |- _ => destruct H
               | H : In _ (map onToolCall _) |- _ =>
                   apply (Ht s) in H; destruct H as [H _]; now apply H
               end.
    + assert (E : match Chunk.reasoning_content (Chunk.delta choice) with
                  | Some rc =>
                      if negb (rc =? "")%string && hasReasoningCallback
                      then [onReasoningContent rc] else []
                  | None => []
                  end = []) by (destruct Habs as [-> | ->]; reflexivity).
      rewrite E in Hin. clear E Habs.
      destruct (Chunk.content (Chunk.delta choice)) as [c|];
        [destruct (negb (c =? "")%string)|];
        destruct (Chunk.finish_reason choice) as [reason|];
        try destruct (reason =? "tool_calls")%string;
        cbn [fst app] in Hin;
        repeat match goal with
               | H : In _ (_ :: _) |- _ => destruct H as [H|H]; [discriminate|]
               | H : In _ [] |- _ => destruct H
               | H : In _ (map onToolCall _) |- _ =>
                   apply (Ht s) in H; destruct H as [_ H]; now apply H
               end.
Qed.

End ClientFacts.

(** ** The tool-call accumulator *)

Section Accumulator.

Lemma Map_update_twice m i g h :
  Map_update (Map_update m i g) i h = Map_update m i (fun v => h (g v)).
Proof.
  induction m as [|[k v] m IH]; [reflexivity|].
  simpl. destruct (k =? i)%Z eqn:E; simpl; rewrite E; [reflexivity|].
  now rewrite IH.
Qed.

Lemma Map_update_ext m i g h :
  (forall v, g v = h v) -> Map_update m i g = Map_update m i h.
Proof.
  intros H. induction m as [|[k v] m IH]; [reflexivity|].
  simpl. now rewrite IH, H.
Qed.

Lemma Map_update_same m i g :
  (forall v, g v = v) -> Map_update m i g = m.
Proof.
  intros H. induction m as [|[k v] m IH]; [reflexivity|].
  simpl. rewrite IH, H. now destruct (k =? i)%Z.
Qed.

Lemma Map_update_set m i v g :
  Map_get m i = None -> Map_update (Map_set m i v) i g = Map_set m i (g v).
Proof.
  induction m as [|[k w] m IH]; simpl.
  - now rewrite Z.eqb_refl.
  - destruct (k =? i)%Z eqn:E; [discriminate|]. intros H.
    simpl. now rewrite E, IH.
Qed.

(** The loop body in one step: a fragment is absorbed by the entry at its
    index; without an entry, a fragment with an id opens one and is
    absorbed by it, a fragment without an id changes nothing. *)
Lemma accumulate_cases p f :
  accumulate p f
  = match Map_get p (Chunk.index f) with
    | Some _ => Map_update p (Chunk.index f) (absorb f)
    | None =>
        match Chunk.id f with
        | Some i =>
            if negb (i =? "")%string
            then Map_set p (Chunk.index f) (absorb f (fresh i))
            else p
        | None => p
        end
    end.
Proof.
  unfold accumulate, absorb, name_text, arguments_text, Js.truthy, fresh.
  destruct (Map_get p (Chunk.index f)) as [v|] eqn:G.
  - destruct (Chunk.id f);
      destruct (function_name f) as [n|]; try destruct (negb (n =? "")%string);
      destruct (function_arguments f) as [a|]; try destruct (negb (a =? "")%string);
      rewrite ?Map_update_twice; try reflexivity;
      symmetry; now apply Map_update_same.
  - destruct (Chunk.id f) as [i|]; [destruct (negb (i =? "")%string)|];
      try reflexivity.
    destruct (function_name f) as [n|]; try destruct (negb (n =? "")%string);
      destruct (function_arguments f) as [a|]; try destruct (negb (a =? "")%string);
      rewrite ?Map_update_twice, ?(Map_update_set _ _ _ _ G); reflexivity.
Qed.

Lemma absorb_fields f p :
  absorb f p
  = {| id := id p;
       function :=
         {| name := (name (function p) ++ name_text f)%string;
            arguments := (arguments (function p) ++ arguments_text f)%string |} |}.
Proof.
  destruct p as [i [n a]].
  unfold absorb, name_text, arguments_text, Js.truthy, append_name, append_arguments.
  destruct (function_name f) as [x|]; [destruct (x =? "")%string eqn:Ex|];
    destruct (function_arguments f) as [y|]; try destruct (y =? "")%string eqn:Ey;
    cbn [negb id function name arguments];
    repeat match goal with
           | H : (_ =? "")%string = true |- _ => apply String.eqb_eq in H; subst
           end;
    now rewrite ?append_nil_r.
Qed.

(** Fragments are appended, in the order in which they arrive. *)
Lemma absorb_all fs : forall p,
  fold_left (fun p f => absorb f p) fs p
  = {| id := id p;
       function :=
         {| name := (name (function p) ++ joined (map name_text fs))%string;
            arguments :=
              (arguments (function p) ++ joined (map arguments_text fs))%string |} |}.
Proof.
  induction fs as [|f fs IH]; intros [i [n a]]; simpl.
  - now rewrite !append_nil_r.
  - rewrite IH, absorb_fields. simpl. now rewrite !append_assoc.
Qed.

Lemma opened_all fs c :
  fold_left opened fs (Some c) = Some (fold_left (fun p f => absorb f p) fs c).
Proof. revert c. induction fs as [|f fs IH]; intros c; simpl; auto. Qed.

(** C10. A fragment that carries no id and arrives at an index without a
    pending entry is dropped: the map of pending calls is left as it was,
    so the calls the session goes on to complete are those of the stream
    without the fragment.  The same holds inside a delta, whatever
    fragments come before and after, and for the callbacks and the
    pending calls of the frame that brings the fragment. *)
Theorem fragment_without_id_is_dropped :
  (forall p f,
      Map_get p (Chunk.index f) = None -> Chunk.id f = None ->
      accumulate p f = p)
  /\ (forall p before f after,
        Map_get (fold_left accumulate before p) (Chunk.index f) = None ->
        Chunk.id f = None ->
        fold_left accumulate (before ++ f :: after) p
        = fold_left accumulate (before ++ after) p)
  /\ (forall h p choice others before f after,
        Chunk.tool_calls (Chunk.delta choice) = Some (before ++ f :: after) ->
        Map_get (fold_left accumulate before p) (Chunk.index f) = None ->
        Chunk.id f = None ->
        onChunk h p {| Chunk.choices := choice :: others |}
        = onChunk h p {| Chunk.choices :=
                           with_tool_calls choice (before ++ after) :: others |}).
Proof.
  assert (A : forall p f, Map_get p (Chunk.index f) = None -> Chunk.id f = None ->
                          accumulate p f = p).
  { intros p f G I. now rewrite accumulate_cases, G, I. }
  assert (B : forall p before f after,
             Map_get (fold_left accumulate before p) (Chunk.index f) = None ->
             Chunk.id f = None ->
             fold_left accumulate (before ++ f :: after) p
             = fold_left accumulate (before ++ after) p).
  { intros p before f after G I. rewrite !fold_left_app. simpl. now rewrite A. }
  repeat split; auto.
  intros h p choice others before f after T G I.
  unfold onChunk, with_tool_calls.
  cbn [Chunk.choices Chunk.delta Chunk.content Chunk.reasoning_content
       Chunk.tool_calls Chunk.finish_reason].
  now rewrite T, B.
Qed.

Lemma two_slots rest : forall a b,
  Forall (fun f => Chunk.index f = 0%Z \/ Chunk.index f = 1%Z) rest ->
  fold_left accumulate rest ((0%Z, a) :: slot b)
  = (0%Z, fold_left (fun p f => absorb f p) (at_index 0 rest) a)
      :: slot (fold_left opened (at_index 1 rest) b).
Proof.
  induction rest as [|f rest IH]; intros a b H; [reflexivity|].
  inversion H as [|? ? Hf Hrest]; subst.
  cbn [fold_left]. rewrite accumulate_cases.
  unfold at_index. cbn [filter]. fold (at_index 0 rest) (at_index 1 rest).
  destruct Hf as [-> | ->]; cbn [Z.eqb Pos.eqb fold_left].
  - cbn [Map_get Map_update Z.eqb]. now apply IH.
  - destruct b as [c|]; cbn [slot Map_get Map_update Map_set Z.eqb Pos.eqb opened].
    + now apply (IH a (Some (absorb f c))).
    + destruct (Chunk.id f) as [i|]; [destruct (negb (i =? "")%string)|].
      * cbn [Map_set Z.eqb]. now apply (IH a (Some (absorb f (fresh i)))).
      * now apply (IH a None).
      * now apply (IH a None).
Qed.

Lemma delivered_app e1 e2 : delivered (e1 ++ e2) = delivered e1 ++ delivered e2.
Proof. unfold delivered. now rewrite flat_map_app. Qed.

Lemma delivered_tool_calls l : delivered (map onToolCall l) = l.
Proof. induction l as [|x l IH]; simpl; [reflexivity | now rewrite IH]. Qed.

(** A frame: its fragments reach the accumulator; it delivers the pending
    calls, and forgets them, when its reason is [tool_calls], and delivers
    none otherwise. *)
Lemma onChunk_tool_calls h p chunk :
  let collected := fold_left accumulate (fragments chunk) p in
  delivered (fst (onChunk h p chunk))
  = (if finishes chunk then Map_values collected else [])
  /\ snd (onChunk h p chunk) = (if finishes chunk then [] else collected).
Proof.
  unfold onChunk, fragments, finishes.
  destruct (Chunk.choices chunk) as [|choice _]; [now split|].
  set (reasoning := match Chunk.reasoning_content _ with Some _ => _ | None => _ end).
  set (content := match Chunk.content _ with Some _ => _ | None => _ end).
  assert (Hr : delivered reasoning = []).
  { subst reasoning. destruct (Chunk.reasoning_content _) as [r|]; [|reflexivity].
    now destruct (_ && _). }
  assert (Hc : delivered content = []).
  { subst content. destruct (Chunk.content _) as [c|]; [|reflexivity].
    now destruct (negb _). }
  assert (E : match Chunk.tool_calls (Chunk.delta choice) with
              | Some tcs => fold_left accumulate tcs p
              | None => p
              end
              = fold_left accumulate
                  match Chunk.tool_calls (Chunk.delta choice) with
                  | Some tcs => tcs
                  | None => []
                  end p)
    by now destruct (Chunk.tool_calls (Chunk.delta choice)).
  rewrite E.
  destruct (Chunk.finish_reason choice) as [reason|];
    [destruct (reason =? "tool_calls")%string|];
    cbn [fst snd]; rewrite ?delivered_app, ?delivered_tool_calls, Hr, Hc; now split.
Qed.

Lemma onChunks_collect h chunks : forall p,
  Forall (fun c => finishes c = false) chunks ->
  delivered (fst (onChunks h p chunks)) = []
  /\ snd (onChunks h p chunks) = fold_left accumulate (flat_map fragments chunks) p.
Proof.
  induction chunks as [|c chunks IH]; intros p H; [now split|].
  inversion H as [|? ? Hc Hrest]; subst.
  cbn [onChunks flat_map]. rewrite fold_left_app.
  destruct (onChunk_tool_calls h p c) as [D P]. rewrite Hc in D, P.
  destruct (onChunk h p c) as [e p']. cbn [fst snd] in D, P. subst p'.
  destruct (IH (fold_left accumulate (fragments c) p) Hrest) as [D' P'].
  destruct (onChunks h _ chunks) as [e' p'']. cbn [fst snd] in *.
  now rewrite delivered_app, D, D'.
Qed.

Lemma onChunks_app h c1 c2 p :
  onChunks h p (c1 ++ c2)
  = (fst (onChunks h p c1) ++ fst (onChunks h (snd (onChunks h p c1)) c2),
     snd (onChunks h (snd (onChunks h p c1)) c2)).
Proof.
  revert p. induction c1 as [|c c1 IH]; intros p; cbn [app onChunks fst snd].
  - now destruct (onChunks h p c2).
  - destruct (onChunk h p c) as [e p']. rewrite IH.
    destruct (onChunks h p' c1) as [e1 p1]. cbn [fst snd].
    now rewrite app_assoc.
Qed.

(** The frames of a stream up to the one that finishes with [tool_calls]
    deliver, at that frame, the values of the accumulator fed with all
    their fragments, in the order of the map. *)
Lemma onChunks_finish h chunks final p :
  Forall (fun c => finishes c = false) chunks ->
  finishes final = true ->
  delivered (fst (onChunks h p (chunks ++ [final])))
  = Map_values (fold_left accumulate (flat_map fragments (chunks ++ [final])) p)
  /\ snd (onChunks h p (chunks ++ [final])) = [].
Proof.
  intros H F. rewrite onChunks_app. cbn [fst snd].
  destruct (onChunks_collect h chunks p H) as [D P]. rewrite P.
  rewrite delivered_app, D, flat_map_app, fold_left_app. cbn [flat_map app onChunks].
  rewrite app_nil_r.
  destruct (onChunk_tool_calls h (fold_left accumulate (flat_map fragments chunks) p)
              final) as [D' P'].
  rewrite F in D', P'.
  destruct (onChunk h _ final) as [e p']. cbn [fst snd] in *.
  now rewrite app_nil_r.
Qed.

End Accumulator.

(** ** Streams of tool calls *)

Section ToolCallStreams.

Variable JSON_parse_chunk : string -> option Chunk.DeepSeekStreamChunk.
Variable hasReasoningCallback : bool.

Local Abbreviation onLines := (onLines JSON_parse_chunk hasReasoningCallback).

Lemma onLine_classify p line :
  onLine JSON_parse_chunk hasReasoningCallback p line
  = match classify JSON_parse_chunk line with
    | Ignored => ([], Some p)
    | Sentinel => (map onToolCall (Map_values p) ++ [onDone], None)
    | Data chunk =>
        let '(events, p') := onChunk hasReasoningCallback p chunk in
        (events, Some p')
    end.
Proof.
  unfold onLine, classify.
  destruct (_ || _); [reflexivity|].
  destruct (_ =? "data: [DONE]")%string; [reflexivity|].
  destruct (Js.startsWith _ "data: "); [|reflexivity].
  now destruct (JSON_parse_chunk _).
Qed.

(** Before the sentinel the loop over the lines is the [try] block over
    the payloads of the data frames; the other lines do nothing. *)
Lemma onLines_payloads lines : forall p,
  sentinel_free JSON_parse_chunk lines = true ->
  onLines p lines
  = (fst (onChunks hasReasoningCallback p (payloads JSON_parse_chunk lines)),
     Some (snd (onChunks hasReasoningCallback p (payloads JSON_parse_chunk lines)))).
Proof.
  induction lines as [|line lines IH]; intros p H; [reflexivity|].
  cbn [sentinel_free forallb] in H. apply andb_prop in H. destruct H as [H1 H2].
  cbn [DeepSeekClient.onLines]. rewrite onLine_classify.
  unfold payloads. cbn [flat_map]. fold (payloads JSON_parse_chunk lines).
  destruct (classify JSON_parse_chunk line) as [| |chunk]; [|discriminate|].
  - rewrite (IH p H2). reflexivity.
  - cbn [app onChunks].
    destruct (onChunk hasReasoningCallback p chunk) as [e p'].
    rewrite (IH p' H2).
    now destruct (onChunks hasReasoningCallback p' (payloads JSON_parse_chunk lines)).
Qed.

Lemma completed_fold i fs :
  fold_left (fun p f => absorb f p) fs (fresh i) = completed i fs.
Proof. now rewrite absorb_all. Qed.

(** C6 (as amended). The data frames of a stream carry two tool calls
    at the indices 0 and 1, in fragments spread over any number of deltas
    and interleaved in any way, and the last of them has the reason
    [tool_calls].  When the first fragment of the stream is the one that
    opens call 0, with its id, and the first fragment at index 1 carries
    the id of call 1, exactly two tool-call callbacks fire at the last
    frame: call 0, then call 1, each with its id and with the names and
    the arguments of all the fragments of its index joined in the order
    of arrival; and no call stays pending. *)
Theorem two_tool_calls_complete_in_order
        lines chunks final f0 rest id0 f1 rest1 id1 :
  sentinel_free JSON_parse_chunk lines = true ->
  payloads JSON_parse_chunk lines = chunks ++ [final] ->
  Forall (fun c => finishes c = false) chunks ->
  finishes final = true ->
  flat_map fragments (chunks ++ [final]) = f0 :: rest ->
  Forall (fun f => Chunk.index f = 0%Z \/ Chunk.index f = 1%Z) rest ->
  Chunk.index f0 = 0%Z ->
  Chunk.id f0 = Some id0 -> id0 <> "" ->
  at_index 1 rest = f1 :: rest1 ->
  Chunk.id f1 = Some id1 -> id1 <> "" ->
  delivered (fst (onLines [] lines))
  = [completed id0 (at_index 0 (f0 :: rest));
     completed id1 (at_index 1 (f0 :: rest))]
  /\ snd (onLines [] lines) = Some [].
Proof.
  intros Hfree Hlines Hchunks Hfinal Hfs Hrest Hi0 Hid0 Hne0 Hat1 Hid1 Hne1.
  rewrite (onLines_payloads _ _ Hfree), Hlines. cbn [fst snd].
  destruct (onChunks_finish hasReasoningCallback chunks final [] Hchunks Hfinal)
    as [D P].
  rewrite D, P, Hfs. split; [|reflexivity].
  cbn [fold_left]. rewrite accumulate_cases, Hi0, Hid0. cbn [Map_get].
  apply String.eqb_neq in Hne0. rewrite Hne0. cbn [negb Map_set].
  change [(0%Z, absorb f0 (fresh id0))]
    with ((0%Z, absorb f0 (fresh id0)) :: slot None).
  rewrite (two_slots rest _ _ Hrest).
  unfold at_index at 3 4. cbn [filter]. rewrite Hi0. cbn [Z.eqb].
  fold (at_index 0 rest) (at_index 1 rest).
  rewrite Hat1. cbn [fold_left opened]. rewrite Hid1.
  apply String.eqb_neq in Hne1. rewrite Hne1. cbn [negb].
  rewrite opened_all. cbn [slot Map_values map snd].
  change (fold_left (fun p f => absorb f p) (at_index 0 rest) (absorb f0 (fresh id0)))
    with (fold_left (fun p f => absorb f p) (f0 :: at_index 0 rest) (fresh id0)).
  change (fold_left (fun p f => absorb f p) rest1 (absorb f1 (fresh id1)))
    with (fold_left (fun p f => absorb f p) (f1 :: rest1) (fresh id1)).
  now rewrite !completed_fold.
Qed.

End ToolCallStreams.

(** ** The message bridge *)

Section BridgeFacts.

Variable JSON_stringify : Json.json -> string.
Variable JSON_stringify_content : list vscode.ResultItem -> string.

Local Abbreviation collect := (Provider.collect JSON_stringify JSON_stringify_content).
Local Abbreviation convertMessages :=
  (Provider.convertMessages JSON_stringify JSON_stringify_content).

Lemma joined_app (a b : list string) :
  joined (a ++ b) = (joined a ++ joined b)%string.
Proof.
  induction a as [|x a IH]; simpl; [reflexivity|].
  now rewrite IH, append_assoc.
Qed.

(** The loop over the parts of a turn adds the text parts to the
    content, the tool calls and the tool results to their lists. *)
Lemma collect_parts parts : forall acc,
  fold_left collect parts acc
  = {| Provider.text_content := (Provider.text_content acc ++ texts parts)%string;
       Provider.toolCalls := Provider.toolCalls acc ++ calls JSON_stringify parts;
       Provider.toolResults :=
         Provider.toolResults acc ++ results JSON_stringify_content parts |}.
Proof.
  induction parts as [|part parts IH]; intros [t c r].
  - simpl. unfold texts. simpl. now rewrite append_nil_r, !app_nil_r.
  - cbn [fold_left]. rewrite IH.
    destruct part as [value|callId name input|callId items|other];
      cbn [Provider.collect Provider.text_content Provider.toolCalls
           Provider.toolResults];
      unfold texts, calls, results; cbn [flat_map app];
      rewrite ?joined_app, <- ?app_assoc, ?append_assoc; cbn [joined fold_right app];
      rewrite ?append_nil_r; try reflexivity.
    destruct (Provider.toolContent items =? "")%string; reflexivity.
Qed.

(** C8 (as amended). A user-role turn gives one [user] wire message
    with the concatenation of its text parts when that is not empty and
    no [user] message when it is empty, followed in both cases by one
    [tool] message for each tool-result part of the turn.  So a user turn
    without tool-result parts gives exactly that one message, or none;
    in particular the turn with the one text part [hi] gives the single
    message [user]/[hi], and the turn with no parts gives no message. *)
Theorem user_turn_wire_messages :
  (forall reasoningCache isReasoner message,
      Provider.mapRole (vscode.role message) = user ->
      convertMessages reasoningCache [message] isReasoner
      = (if (texts (vscode.content message) =? "")%string then []
         else [userMessage (texts (vscode.content message))])
        ++ map Provider.toolMessage
             (results JSON_stringify_content (vscode.content message)))
  /\ (forall reasoningCache isReasoner message,
        Provider.mapRole (vscode.role message) = user ->
        has_tool_result (vscode.content message) = false ->
        convertMessages reasoningCache [message] isReasoner
        = if (texts (vscode.content message) =? "")%string then []
          else [userMessage (texts (vscode.content message))])
  /\ (forall reasoningCache isReasoner,
        convertMessages reasoningCache
          [{| vscode.role := vscode.User;
              vscode.content := [vscode.LanguageModelTextPart "hi"] |}] isReasoner
        = [userMessage "hi"]
        /\ convertMessages reasoningCache
             [{| vscode.role := vscode.User; vscode.content := [] |}] isReasoner
           = []).
Proof.
  assert (A : forall reasoningCache isReasoner message,
             Provider.mapRole (vscode.role message) = user ->
             convertMessages reasoningCache [message] isReasoner
             = (if (texts (vscode.content message) =? "")%string then []
                else [userMessage (texts (vscode.content message))])
               ++ map Provider.toolMessage
                    (results JSON_stringify_content (vscode.content message))).
  { intros cache isReasoner message Hrole.
    unfold Provider.convertMessages, Provider.convertMessage.
    cbn [fold_left app]. rewrite Hrole, collect_parts.
    cbn [Provider.text_content Provider.toolResults app append].
    now destruct (texts (vscode.content message) =? "")%string. }
  split; [exact A|]. split.
  - intros cache isReasoner message Hrole Hnone. rewrite (A _ _ _ Hrole).
    assert (E : results JSON_stringify_content (vscode.content message) = []).
    { induction (vscode.content message) as [|part parts IH]; [reflexivity|].
      destruct part; cbn [has_tool_result existsb orb] in Hnone;
        try discriminate; unfold results; cbn [flat_map app]; now apply IH. }
    rewrite E. cbn [map]. now rewrite app_nil_r.
  - intros cache isReasoner. split; now rewrite A.
Qed.

End BridgeFacts.

(** ** The reasoning cache *)

Section CacheFacts.

Variable JSON_stringify : Json.json -> string.
Variable JSON_stringify_content : list vscode.ResultItem -> string.
Variable JSON_parse : string -> option Json.json.
Variable JSON_parse_chunk : string -> option Chunk.DeepSeekStreamChunk.
Variable decoder : TextDecoder.
Variable responseId : string.

Local Abbreviation provide :=
  (Provider.provideLanguageModelChatResponse
     JSON_stringify JSON_stringify_content JSON_parse JSON_parse_chunk decoder
     responseId).

Local Abbreviation respond := (Provider.respond JSON_parse responseId).
Local Abbreviation handleDone := (Provider.handleDone responseId).
Local Abbreviation recordResponse := (Provider.recordResponse responseId).

(** Deleting the first [n] keys, one by one, removes the [n] entries
    inserted first. *)
Lemma delete_oldest (m : Provider.ReasoningCache) : forall n,
  fold_left Provider.Map_delete (firstn n (Provider.Map_keys m)) m = skipn n m.
Proof.
  induction m as [|[k v] m IH]; intros [|n]; try reflexivity.
  cbn [Provider.Map_keys map fst firstn fold_left Provider.Map_delete skipn].
  rewrite String.eqb_refl. apply IH.
Qed.

Lemma evictOverCapacity_skipn (m : Provider.ReasoningCache) :
  Provider.evictOverCapacity m = skipn (Provider.Map_size m - 50) m.
Proof.
  unfold Provider.evictOverCapacity.
  destruct (50 <? Provider.Map_size m) eqn:E.
  - unfold Provider.Map_keys at 1. rewrite length_map. apply delete_oldest.
  - apply Nat.ltb_ge in E. unfold Provider.Map_size in *.
    replace (List.length m - 50) with 0 by lia. reflexivity.
Qed.

(** C7. A session starts from the empty cache, whatever the provider
    held: neither the request messages nor the state the callbacks leave
    depend on the cache held before.  At completion, once the reasoning left over is stored, a cache
    of more than 50 entries is cut down to exactly 50, the 50 inserted
    last, in their order; a cache of at most 50 entries is left as it is.
    Sixty insertions in a row in one session leave the 50 last ones. *)
Theorem reasoning_cache_is_cleared_and_trimmed :
  (forall isReasoner held events,
      Provider.reasoningCache (Provider.start held) = []
      /\ respond isReasoner held events = respond isReasoner [] events)
  /\ (forall apiKey held modelId messages f,
        provide apiKey held modelId messages f = provide apiKey [] modelId messages f)
  /\ (forall isReasoner s,
        let stored := Provider.reasoningCache (recordResponse isReasoner s) in
        let left := Provider.reasoningCache (handleDone isReasoner s) in
        left = skipn (Provider.Map_size stored - 50) stored
        /\ (50 < Provider.Map_size stored -> Provider.Map_size left = 50)
        /\ (Provider.Map_size stored <= 50 -> left = stored))
  /\ (forall held,
        Provider.reasoningCache (respond true held (entries 0 60 ++ [onDone]))
        = map (fun i => (entry_key i, "r")) (seq 10 50)).
Proof.
  split; [|split; [|split]].
  - intros isReasoner held events. split; reflexivity.
  - reflexivity.
  - intros isReasoner s stored left.
    assert (E : left = skipn (Provider.Map_size stored - 50) stored).
    { subst left stored. unfold Provider.handleDone.
      cbn [Provider.settle Provider.with_cache Provider.reasoningCache].
      apply evictOverCapacity_skipn. }
    split; [exact E|]. split.
    + intros H. rewrite E. unfold Provider.Map_size in *.
      rewrite length_skipn. lia.
    + intros H. rewrite E. unfold Provider.Map_size in *.
      replace (List.length stored - 50) with 0 by lia. reflexivity.
  - intros held. vm_compute. reflexivity.
Qed.

End CacheFacts.

Example parse_error_body :
  Json.parse (Json.wire "{'error':{'message':'bad key'}, 'n': [1, -20, true, null]}")
  = Some (Json.JObj [("error", Json.JObj [("message", Json.JStr "bad key")]);
                     ("n", Json.JArr [Json.JNum 1; Json.JNum (-20); Json.JBool true; Json.JNull])]).
Proof. vm_compute. reflexivity. Qed.

Example trim_line :
  Js.trim (String (ascii_of_nat 9) " data: x " ++ String (ascii_of_nat 194) (String (ascii_of_nat 160) (String (ascii_of_nat 13) "")))
  = "data: x".
Proof. vm_compute. reflexivity. Qed.

Example run_content_then_done :
  run (streaming (reads hello_in_pieces Closed)) = [onContent "Hello"; onDone].
Proof. vm_compute. reflexivity. Qed.

Example run_two_calls :
  run (streaming (Read (List.concat (map (fun l => bytes l ++ [x0a]) two_calls)) Closed))
  = [onToolCall (call "call_a" "get_weather" "{}");
     onToolCall (call "call_b" "get_time" "{}");
     onDone].
Proof. vm_compute. reflexivity. Qed.

(* ================================================================== *)
(** * The properties on wire text *)

(** ** End of stream with calls pending *)

(** C2. The sentinel frame delivers the pending tool calls before
    [onDone]; the close of the socket does not: with any calls pending,
    [reader.read()] reporting [done] leaves the loop and invokes [onDone]
    alone.  A stream with one complete tool call and no finish reason
    delivers the call when the sentinel follows, and loses it when the
    socket just closes. *)
Theorem close_drops_pending_tool_calls :
  (forall JSON_parse_chunk h p,
      onLine JSON_parse_chunk h p "data: [DONE]"
      = (map onToolCall (Map_values p) ++ [onDone], None))
  /\ (forall JSON_parse_chunk h decoder d buffer p,
        readLoop JSON_parse_chunk h decoder d buffer p Closed = [onDone])
  /\ run (streaming (Read (one_call ++ line "data: [DONE]") Closed))
     = [onToolCall (call "call_1" "get_time" "{}"); onDone]
  /\ run (streaming (Read one_call Closed)) = [onDone].
Proof.
  split; [|split; [|split]]; try reflexivity; vm_compute; reflexivity.
Qed.

(** ** Instances *)

Lemma chunking_instance :
  List.concat hello_in_pieces = List.concat hello_at_once
  /\ run (streaming (reads hello_in_pieces Closed))
     = run (streaming (reads hello_at_once Closed)).
Proof.
  assert (H : List.concat hello_in_pieces = List.concat hello_at_once)
    by (vm_compute; reflexivity).
  split; [exact H|].
  exact (proj1 (chunking_does_not_change_the_callbacks
                  Json.parse View.parse_chunk true ascii_decoder)
               200 hello_in_pieces hello_at_once Closed H).
Defined.

Lemma cancellation_instance :
  run (streaming (reads (firstn 2 hello_in_pieces) Closed)) = [onContent "Hello"; onDone]
  /\ run (streaming (reads (firstn 2 hello_in_pieces) Cancelled))
     = [onContent "Hello"; onDone]
  /\ run (streaming (reads (firstn 2 hello_in_pieces)
                        (ReadFails (ThrowError {| error_name := "AbortError";
                                                  message := "The operation was aborted" |}))))
     = [onContent "Hello"; onDone]
  /\ run (streaming (reads (firstn 2 hello_in_pieces)
                        (ReadFails (ThrowError {| error_name := "TypeError";
                                                  message := "terminated" |}))))
     = [onContent "Hello";
        onError {| error_name := "TypeError"; message := "terminated" |}]
  /\ (exists before,
        run (streaming (reads (firstn 2 hello_in_pieces) Cancelled)) = before ++ [onDone]
        /\ Forall (fun e => terminal e = false) before
        /\ (forall err,
              ~ In (onError err)
                   (run (streaming (reads (firstn 2 hello_in_pieces) Cancelled)))))
  /\ (exists before,
        run (streaming
               (reads (firstn 2 hello_in_pieces)
                      (ReadFails (ThrowError {| error_name := "AbortError";
                                                message := "The operation was aborted" |}))))
        = before ++ [onDone]
        /\ Forall (fun e => terminal e = false) before
        /\ (forall err,
              ~ In (onError err)
                   (run (streaming
                           (reads (firstn 2 hello_in_pieces)
                                  (ReadFails (ThrowError
                                                {| error_name := "AbortError";
                                                   message := "The operation was aborted" |}))))))).
Proof.
  split; [vm_compute; reflexivity|].
  split; [vm_compute; reflexivity|].
  split; [vm_compute; reflexivity|].
  split; [vm_compute; reflexivity|].
  split.
  - exact (cancellation_completes_the_session
             Json.parse View.parse_chunk true ascii_decoder
             (response_of 200 (reads (firstn 2 hello_in_pieces) Cancelled))
             (reads (firstn 2 hello_in_pieces) Cancelled)
             eq_refl eq_refl eq_refl).
  - exact (cancellation_completes_the_session
             Json.parse View.parse_chunk true ascii_decoder
             (response_of 200
                (reads (firstn 2 hello_in_pieces)
                       (ReadFails (ThrowError
                                     {| error_name := "AbortError";
                                        message := "The operation was aborted" |}))))
             (reads (firstn 2 hello_in_pieces)
                    (ReadFails (ThrowError
                                  {| error_name := "AbortError";
                                     message := "The operation was aborted" |})))
             eq_refl eq_refl eq_refl).
Defined.

Lemma clean_session_instance :
  error_free (streaming (reads (firstn 2 hello_in_pieces) Closed)) = true
  /\ run (streaming (reads (firstn 2 hello_in_pieces) Closed))
     = [onContent "Hello"; onDone]
  /\ exists before,
       Forall (fun e => terminal e = false) before
       /\ run (streaming (reads (firstn 2 hello_in_pieces) Closed)) = before ++ [onDone].
Proof.
  split; [reflexivity|]. split; [vm_compute; reflexivity|].
  exact (proj1 (proj2 (exactly_one_terminal_callback
                         Json.parse View.parse_chunk true ascii_decoder
                         (streaming (reads (firstn 2 hello_in_pieces) Closed))))
               eq_refl).
Defined.

Lemma protocol_error_instance :
  run (Fetched {| status := 401;
                  text := inr (Json.wire "{'error':{'message':'bad key'}}");
                  response_body := None |})
  = [onError {| error_name := "Error";
                message := "DeepSeek API error (401): bad key" |}].
Proof.
  exact (proj1 (protocol_error_message
                  Json.parse View.parse_chunk true ascii_decoder
                  {| status := 401;
                     text := inr (Json.wire "{'error':{'message':'bad key'}}");
                     response_body := None |}
                  (Json.wire "{'error':{'message':'bad key'}}")
                  eq_refl eq_refl)).
Defined.

Lemma two_tool_calls_instance :
  delivered (fst (onLines View.parse_chunk true [] two_calls))
  = [call "call_a" "get_weather" "{}"; call "call_b" "get_time" "{}"]
  /\ snd (onLines View.parse_chunk true [] two_calls) = Some [].
Proof.
  refine (two_tool_calls_complete_in_order View.parse_chunk true
            two_calls two_calls_chunks two_calls_final
            (fragment 0 (Some "call_a") (Some "get_") (Some ""))
            [fragment 1 (Some "call_b") (Some "get_") (Some "{");
             fragment 0 None (Some "weather") (Some "{");
             fragment 1 None (Some "time") None;
             fragment 0 None None (Some "}");
             fragment 1 None None (Some "}")]
            "call_a"
            (fragment 1 (Some "call_b") (Some "get_") (Some "{"))
            [fragment 1 None (Some "time") None;
             fragment 1 None None (Some "}")]
            "call_b" _ _ _ _ _ _ _ _ _ _ _ _).
  - vm_compute. reflexivity.
  - vm_compute. reflexivity.
  - repeat constructor.
  - reflexivity.
  - reflexivity.
  - repeat (apply Forall_cons; [vm_compute; auto|]). apply Forall_nil.
  - reflexivity.
  - reflexivity.
  - discriminate.
  - reflexivity.
  - reflexivity.
  - discriminate.
Defined.

Lemma cache_trim_instance :
  let s := Provider.respond Json.parse "response_1" true [] (entries 0 60) in
  50 < Provider.Map_size (Provider.reasoningCache (Provider.recordResponse "response_1" true s))
  /\ Provider.Map_size (Provider.reasoningCache (Provider.handleDone "response_1" true s)) = 50.
Proof.
  intros s.
  assert (H : 50 < Provider.Map_size
                     (Provider.reasoningCache (Provider.recordResponse "response_1" true s)))
    by (vm_compute; repeat constructor).
  split; [exact H|].
  exact (proj1 (proj2 (proj1 (proj2 (proj2 (reasoning_cache_is_cleared_and_trimmed
                                              (fun _ => "") (fun _ => "")
                                              Json.parse View.parse_chunk
                                              ascii_decoder "response_1")))
                             true s)) H).
Defined.

Lemma user_turn_instance :
  Provider.mapRole (vscode.role tool_answer) = user
  /\ Provider.convertMessages (fun _ => "") (fun _ => "") [] [tool_answer] false
     = [Provider.toolMessage ("call_1", "42")].
Proof.
  split; [reflexivity|].
  exact (proj1 (user_turn_wire_messages (fun _ => "") (fun _ => ""))
               [] false tool_answer eq_refl).
Defined.

Lemma empty_content_instance :
  Forall carries_text (run (streaming (reads hello_in_pieces Closed)))
  /\ ~ In (onContent "f")
         (fst (onChunk true []
                 (tool_frame (Some [fragment 0 (Some "call_1") (Some "f") None]) None))).
Proof.
  split.
  - exact (proj1 (content_callbacks_receive_text
                    Json.parse View.parse_chunk true ascii_decoder)
                 (streaming (reads hello_in_pieces Closed))).
  - exact (proj1 (proj2 (content_callbacks_receive_text
                           Json.parse View.parse_chunk true ascii_decoder)
                        [] (tool_frame (Some [fragment 0 (Some "call_1") (Some "f") None]) None)
                        _ [] eq_refl)
                 (or_introl eq_refl) "f").
Defined.

Lemma dropped_fragment_instance :
  accumulate [(0%Z, call "call_a" "f" "")] (fragment 1 None (Some "get_") (Some "{"))
  = [(0%Z, call "call_a" "f" "")].
Proof.
  exact (proj1 fragment_without_id_is_dropped
               [(0%Z, call "call_a" "f" "")]
               (fragment 1 None (Some "get_") (Some "{"))
               eq_refl eq_refl).
Defined.

(** ** Where the specification says more than the code does *)

(** C6, as the specification states it, fails: the stream
    [two_calls_out_of_order] carries two tool calls at the indices 0 and
    1, and at the reason [tool_calls] the callbacks fire for call 1 and
    then for call 0, in the order in which the entries were opened; and
    the name fragment that came for call 0 before its id is not part of
    the name delivered. *)
Lemma tool_calls_follow_arrival_not_index :
  delivered (run (streaming (Read two_calls_out_of_order Closed)))
  = [call "call_b" "get_time" "{}"; call "call_a" "weather" "{}"]
  /\ delivered (run (streaming (Read two_calls_out_of_order Closed)))
     <> [call "call_a" "get_weather" "{}"; call "call_b" "get_time" "{}"].
Proof.
  assert (H : delivered (run (streaming (Read two_calls_out_of_order Closed)))
              = [call "call_b" "get_time" "{}"; call "call_a" "weather" "{}"])
    by (vm_compute; reflexivity).
  split; [exact H|]. rewrite H. discriminate.
Qed.

(** C8, as the specification states it, fails: the user turn
    [tool_answer] has no text, and yet the bridge emits a wire message for
    it, the [tool] message of its tool result. *)
Lemma user_turn_without_text_emits_tool_message :
  texts (vscode.content tool_answer) = ""
  /\ Provider.convertMessages (fun _ => "") (fun _ => "") [] [tool_answer] false
     = [{| role := tool; content := "42"; tool_call_id := Some "call_1";
           tool_calls := None; reasoning_content := None |}]
  /\ Provider.convertMessages (fun _ => "") (fun _ => "") [] [tool_answer] false <> [].
Proof.
  split; [reflexivity|]. split; [reflexivity|]. discriminate.
Qed.

(* ================================================================== *)
(** * Further properties of the client *)

Section LineLoop.

Variable JSON_parse_chunk : string -> option Chunk.DeepSeekStreamChunk.
Variable hasReasoningCallback : bool.
Variable decoder : TextDecoder.

Local Abbreviation onLines := (onLines JSON_parse_chunk hasReasoningCallback).
Local Abbreviation readLoop := (readLoop JSON_parse_chunk hasReasoningCallback decoder).

Lemma onLines_cons p line lines :
  onLines p (line :: lines)
  = match classify JSON_parse_chunk line with
    | Ignored => onLines p lines
    | Sentinel => (map onToolCall (Map_values p) ++ [onDone], None)
    | Data chunk =>
        (fst (onChunk hasReasoningCallback p chunk)
         ++ fst (onLines (snd (onChunk hasReasoningCallback p chunk)) lines),
         snd (onLines (snd (onChunk hasReasoningCallback p chunk)) lines))
    end.
Proof.
  cbn [DeepSeekClient.onLines]. rewrite onLine_classify.
  destruct (classify JSON_parse_chunk line) as [| |chunk].
  - now destruct (onLines p lines).
  - reflexivity.
  - destruct (onChunk hasReasoningCallback p chunk) as [e p']. cbn [fst snd].
    now destruct (onLines p' lines).
Qed.

Lemma onLines_congruence p before l1 l2 :
  (forall q, onLines q l1 = onLines q l2) ->
  onLines p (before ++ l1) = onLines p (before ++ l2).
Proof.
  intros H. rewrite !onLines_app.
  destruct (onLines p before) as [e [q|]]; [|reflexivity].
  now rewrite H.
Qed.

(** X1. A line that never reaches the body of the [try] block can be
    taken out of the stream, wherever it stands, without changing a
    callback or the pending tool calls: a blank line, a comment, a line
    without the [data: ] prefix, and a data line on whose payload
    [JSON.parse] throws.  The payload is parsed at the declared type by
    the same [JSON.parse]. *)
Theorem ignored_line_changes_nothing
        (JSON_parse : string -> option Json.json) p before line after :
  (forall payload, JSON_parse payload = None -> JSON_parse_chunk payload = None) ->
  skipped JSON_parse line = true ->
  onLines p (before ++ line :: after) = onLines p (before ++ after).
Proof.
  intros Hparse H.
  assert (C : classify JSON_parse_chunk line = Ignored).
  { unfold skipped in H. unfold classify.
    destruct (_ || _); [reflexivity|].
    destruct (_ =? "data: [DONE]")%string; [discriminate|].
    destruct (Js.startsWith _ "data: "); [|reflexivity].
    destruct (JSON_parse _) eqn:E; [discriminate|].
    now rewrite (Hparse _ E). }
  apply onLines_congruence. intros q.
  now rewrite onLines_cons, C.
Qed.

Lemma onLines_not_sentinel_free lines : forall p,
  sentinel_free JSON_parse_chunk lines = false ->
  snd (onLines p lines) = None.
Proof.
  induction lines as [|line lines IH]; intros p H; [discriminate|].
  rewrite onLines_cons. cbn [sentinel_free forallb] in H.
  destruct (classify JSON_parse_chunk line) as [| |chunk];
    cbn [andb] in H; [now apply IH | reflexivity | cbn [snd]; now apply IH].
Qed.

(** X2. Nothing is processed after the sentinel: the lines that follow
    it in the same chunk are dropped, and the loop does not read again,
    so whatever the stream does afterwards (more chunks, a failing read, a
    cancellation) changes no callback. *)
Theorem nothing_follows_the_sentinel :
  (forall p before line after,
      classify JSON_parse_chunk line = Sentinel ->
      onLines p (before ++ line :: after) = onLines p (before ++ [line]))
  /\ (forall d buffer p value rest rest',
        sentinel_free JSON_parse_chunk
          (removelast (Js.split_lines (buffer ++ snd (decode decoder d value))))
        = false ->
        readLoop d buffer p (Read value rest) = readLoop d buffer p (Read value rest')).
Proof.
  split.
  - intros p before line after H. apply onLines_congruence. intros q.
    now rewrite !onLines_cons, H.
  - intros d buffer p value rest rest' H.
    cbn [DeepSeekClient.readLoop].
    destruct (decode decoder d value) as [d' decoded]. cbn [snd] in H.
    pose proof (onLines_not_sentinel_free _ p H) as E.
    destruct (onLines p _) as [events o]. cbn [snd] in E. now subst o.
Qed.

Lemma split_lines_without_LF s : has_LF s = false -> Js.split_lines s = [s].
Proof.
  induction s as [|c s IH]; [reflexivity|].
  cbn [has_LF Js.split_lines]. intros H. apply orb_false_elim in H.
  destruct H as [Hc Hs]. now rewrite Hc, (IH Hs).
Qed.

(** X3. A frame is processed only once its line feed has arrived: a
    chunk that brings no line feed invokes no callback and is only added
    to the buffer.  So text that the stream leaves without a final line
    feed, even the sentinel, is lost when the stream closes: the session
    ends with [onDone] alone. *)
Theorem unterminated_text_is_only_buffered d buffer p value :
  has_LF (buffer ++ snd (decode decoder d value)) = false ->
  (forall rest,
      readLoop d buffer p (Read value rest)
      = readLoop (fst (decode decoder d value))
                 (buffer ++ snd (decode decoder d value)) p rest)
  /\ readLoop d buffer p (Read value Closed) = [onDone].
Proof.
  intros H.
  assert (A : forall rest,
             readLoop d buffer p (Read value rest)
             = readLoop (fst (decode decoder d value))
                        (buffer ++ snd (decode decoder d value)) p rest).
  { intros rest. cbn [DeepSeekClient.readLoop].
    destruct (decode decoder d value) as [d' decoded]. cbn [fst snd] in *.
    now rewrite (split_lines_without_LF _ H). }
  split; [exact A|]. now rewrite A.
Qed.

Lemma removelast_app_nonempty {A} (l1 l2 : list A) :
  l2 <> [] -> removelast (l1 ++ l2) = l1 ++ removelast l2.
Proof. apply removelast_app. Qed.

Lemma readLoop_nonempty b d buffer p : readLoop d buffer p b <> [].
Proof.
  destruct (readLoop_shape JSON_parse_chunk hasReasoningCallback decoder b d buffer p)
    as [before [_ [H | [err H]]]]; rewrite H; now destruct before.
Qed.

Lemma readLoop_ends_alike chunks e : forall d buffer p,
  readLoop d buffer p (reads chunks Cancelled)
  = readLoop d buffer p (reads chunks Closed)
  /\ removelast (readLoop d buffer p (reads chunks (ReadFails e)))
     = removelast (readLoop d buffer p (reads chunks Closed)).
Proof.
  induction chunks as [|value chunks IH]; intros d buffer p.
  - split; [reflexivity|]. cbn [reads fold_right DeepSeekClient.readLoop].
    destruct (catch_shape e) as [H | [err H]]; now rewrite H.
  - cbn [reads fold_right DeepSeekClient.readLoop].
    fold (reads chunks Cancelled) (reads chunks Closed) (reads chunks (ReadFails e)).
    destruct (decode decoder d value) as [d' decoded].
    destruct (onLines p _) as [events [p'|]]; [|now split].
    destruct (IH d' (last (Js.split_lines (buffer ++ decoded)) "") p') as [H1 H2].
    split; [now rewrite H1|].
    rewrite !removelast_app_nonempty by apply readLoop_nonempty.
    now rewrite H2.
Qed.

(** X4. How a stream ends changes the terminal callback only.  A
    cancellation seen at the head of the loop gives the very session of a
    clean close after the same chunks; a read that fails after the same
    chunks gives the same callbacks up to the last one: what was delivered
    before the failure is neither withdrawn nor repeated. *)
Theorem end_of_stream_changes_the_last_callback_only
        (JSON_parse : string -> option Json.json) status chunks e :
  let session rest :=
    streamChatCompletion JSON_parse JSON_parse_chunk hasReasoningCallback decoder
      (Fetched (response_of status (reads chunks rest))) in
  session Cancelled = session Closed
  /\ removelast (session (ReadFails e)) = removelast (session Closed).
Proof.
  intros session. subst session. unfold streamChatCompletion, response_of.
  cbn [ok DeepSeekClient.status text response_body].
  destruct (negb _); [now split|]. apply readLoop_ends_alike.
Qed.

(** X8. Tool calls delivered at the reason [tool_calls] are not
    delivered again: when the last data frame before the sentinel has
    that reason, the sentinel adds [onDone] and nothing else to the
    callbacks of the frames. *)
Theorem sentinel_after_finish_adds_only_onDone p lines chunks final sentinel :
  sentinel_free JSON_parse_chunk lines = true ->
  payloads JSON_parse_chunk lines = chunks ++ [final] ->
  finishes final = true ->
  classify JSON_parse_chunk sentinel = Sentinel ->
  onLines p (lines ++ [sentinel])
  = (fst (onChunks hasReasoningCallback p (chunks ++ [final])) ++ [onDone], None).
Proof.
  intros Hfree Hpay Hfin Hs.
  rewrite onLines_app, (onLines_payloads _ _ _ _ Hfree), Hpay.
  rewrite onLines_cons, Hs.
  rewrite onChunks_app. cbn [fst snd onChunks].
  destruct (onChunk_tool_calls hasReasoningCallback
              (snd (onChunks hasReasoningCallback p chunks)) final) as [_ P].
  rewrite Hfin in P.
  destruct (onChunk hasReasoningCallback _ final) as [e p']. cbn [fst snd] in *.
  subst p'. reflexivity.
Qed.

End LineLoop.

(** ** The accumulator at any index *)

Section AccumulatorAtLarge.

Lemma Map_get_update m k g i :
  Map_get (Map_update m k g) i
  = if (k =? i)%Z then option_map g (Map_get m i) else Map_get m i.
Proof.
  induction m as [|[k' v] m IH]; cbn [Map_update Map_get option_map].
  - now destruct (k =? i)%Z.
  - destruct (k' =? k)%Z eqn:E; cbn [Map_get].
    + apply Z.eqb_eq in E. subst k'.
      destruct (k =? i)%Z; reflexivity.
    + rewrite IH. destruct (k' =? i)%Z eqn:E'; [|reflexivity].
      apply Z.eqb_eq in E'. subst k'.
      rewrite Z.eqb_sym in E. now rewrite E.
Qed.

Lemma Map_get_set m k v i :
  Map_get (Map_set m k v) i = if (k =? i)%Z then Some v else Map_get m i.
Proof.
  induction m as [|[k' w] m IH]; cbn [Map_set Map_get].
  - reflexivity.
  - destruct (k' =? k)%Z eqn:E; cbn [Map_get].
    + apply Z.eqb_eq in E. subst k'. now destruct (k =? i)%Z.
    + rewrite IH. destruct (k' =? i)%Z eqn:E'; [|reflexivity].
      apply Z.eqb_eq in E'. subst k'.
      rewrite Z.eqb_sym in E. now rewrite E.
Qed.

Lemma accumulate_at p f i :
  Map_get (accumulate p f) i
  = if (Chunk.index f =? i)%Z then opened (Map_get p i) f else Map_get p i.
Proof.
  rewrite accumulate_cases. unfold opened.
  destruct (Chunk.index f =? i)%Z eqn:E.
  - apply Z.eqb_eq in E. subst i.
    destruct (Map_get p (Chunk.index f)) as [v|] eqn:G.
    + now rewrite Map_get_update, Z.eqb_refl, G.
    + destruct (Chunk.id f) as [j|]; [|exact G].
      destruct (negb (j =? "")%string); [|exact G].
      now rewrite Map_get_set, Z.eqb_refl.
  - destruct (Map_get p (Chunk.index f)) as [v|].
    + now rewrite Map_get_update, E.
    + destruct (Chunk.id f) as [j|]; [|reflexivity].
      destruct (negb (j =? "")%string); [|reflexivity].
      now rewrite Map_get_set, E.
Qed.

(** X5. Tool calls at different indices do not interfere: the entry the
    accumulator holds at an index after any run of fragments is what the
    fragments of that index alone make of the entry it held before,
    whatever the fragments of other indices between them. *)
Theorem calls_accumulate_independently fs : forall p i,
  Map_get (fold_left accumulate fs p) i
  = fold_left opened (at_index i fs) (Map_get p i).
Proof.
  induction fs as [|f fs IH]; intros p i; [reflexivity|].
  cbn [fold_left]. rewrite IH, accumulate_at.
  unfold at_index. cbn [filter].
  destruct (Chunk.index f =? i)%Z; reflexivity.
Qed.

Lemma opened_without_id pre :
  Forall (fun f => Js.truthy (Chunk.id f) = false) pre ->
  fold_left opened pre None = None.
Proof.
  induction 1 as [|f pre Hf _ IH]; [reflexivity|].
  cbn [fold_left opened]. unfold Js.truthy in Hf.
  destruct (Chunk.id f) as [j|]; [rewrite Hf|]; exact IH.
Qed.

(** X6. A call is opened by the first fragment of its index that brings
    an id, and keeps that id: of the fragments of an index with no entry
    yet, those that come before the first id are dropped, and the call
    completed is the id of that fragment with the names and the arguments
    of it and of all later fragments of the index, ids that these bring
    being ignored. *)
Theorem call_is_opened_by_its_first_id fs p i pre f0 rest id0 :
  Map_get p i = None ->
  at_index i fs = pre ++ f0 :: rest ->
  Forall (fun f => Js.truthy (Chunk.id f) = false) pre ->
  Chunk.id f0 = Some id0 ->
  id0 <> "" ->
  Map_get (fold_left accumulate fs p) i = Some (completed id0 (f0 :: rest)).
Proof.
  intros G Hat Hpre Hid Hne.
  rewrite calls_accumulate_independently, G, Hat, fold_left_app.
  rewrite (opened_without_id pre Hpre).
  cbn [fold_left opened]. rewrite Hid.
  apply String.eqb_neq in Hne. rewrite Hne. cbn [negb].
  rewrite opened_all.
  change (fold_left (fun p f => absorb f p) rest (absorb f0 (fresh id0)))
    with (fold_left (fun p f => absorb f p) (f0 :: rest) (fresh id0)).
  now rewrite completed_fold.
Qed.

Lemma Map_update_keys m k g : map fst (Map_update m k g) = map fst m.
Proof.
  induction m as [|[k' v] m IH]; [reflexivity|].
  cbn [Map_update]. destruct (k' =? k)%Z; cbn [map fst]; now rewrite ?IH.
Qed.

Lemma Map_set_keys m k v :
  Map_get m k = None -> map fst (Map_set m k v) = map fst m ++ [k].
Proof.
  induction m as [|[k' w] m IH]; [reflexivity|].
  cbn [Map_get Map_set]. destruct (k' =? k)%Z; [discriminate|].
  intros H. cbn [map fst app]. now rewrite IH.
Qed.

Lemma Map_get_none_not_in m k : Map_get m k = None -> ~ In k (map fst m).
Proof.
  induction m as [|[k' w] m IH]; [auto|].
  cbn [Map_get]. destruct (k' =? k)%Z eqn:E; [discriminate|].
  intros H [H'|H']; [|now apply IH].
  cbn in H'. subst k'. now rewrite Z.eqb_refl in E.
Qed.

Lemma NoDup_snoc {A} (l : list A) (x : A) :
  NoDup l -> ~ In x l -> NoDup (l ++ [x]).
Proof.
  intros Hl Hx. induction Hl as [|y l Hy Hl IH]; cbn.
  - constructor; [auto | constructor].
  - constructor.
    + intros Hin. apply in_app_or in Hin. destruct Hin as [Hin|[->|[]]]; [auto|].
      apply Hx. now left.
    + apply IH. intros Hin. apply Hx. now right.
Qed.

Lemma accumulate_keys p f :
  exists opened_now,
    map fst (accumulate p f) = map fst p ++ opened_now
    /\ (NoDup (map fst p) -> NoDup (map fst p ++ opened_now)).
Proof.
  rewrite accumulate_cases.
  destruct (Map_get p (Chunk.index f)) as [v|] eqn:G.
  - exists []. rewrite Map_update_keys, app_nil_r. auto.
  - assert (N : exists opened_now, map fst p = map fst p ++ opened_now
                 /\ (NoDup (map fst p) -> NoDup (map fst p ++ opened_now)))
      by (exists []; rewrite app_nil_r; auto).
    destruct (Chunk.id f) as [j|]; [|exact N].
    destruct (negb (j =? "")%string); [|exact N].
    exists [Chunk.index f]. rewrite (Map_set_keys _ _ _ G). split; [reflexivity|].
    intros H. apply NoDup_snoc; [exact H|]. now apply Map_get_none_not_in.
Qed.

(** X7. The order of delivery is the order in which the calls were
    opened: fragments never remove or move an entry of the map, they only
    add entries at its end; and the map never comes to hold two entries
    for one index. *)
Theorem entries_keep_their_order fs : forall p,
  exists opened_later,
    map fst (fold_left accumulate fs p) = map fst p ++ opened_later
    /\ (NoDup (map fst p) -> NoDup (map fst (fold_left accumulate fs p))).
Proof.
  induction fs as [|f fs IH]; intros p.
  - exists []. rewrite app_nil_r. auto.
  - cbn [fold_left].
    destruct (accumulate_keys p f) as [now_ [E N]].
    destruct (IH (accumulate p f)) as [later [E' N']].
    exists (now_ ++ later). split; [now rewrite E', E, app_assoc|].
    intros H. apply N'. rewrite E. now apply N.
Qed.

End AccumulatorAtLarge.

(* ================================================================== *)
(** * Properties of the key store *)

Section TrimFacts.

Lemma reverse_acc s : forall acc,
  Js.reverse acc s = (Js.reverse "" s ++ acc)%string.
Proof.
  induction s as [|c s IH]; intros acc; [reflexivity|].
  cbn [Js.reverse]. rewrite (IH (String c acc)), (IH (String c "")).
  now rewrite append_assoc.
Qed.

Lemma reverse_app a b :
  Js.reverse "" (a ++ b) = (Js.reverse "" b ++ Js.reverse "" a)%string.
Proof.
  induction a as [|c a IH]; cbn [append Js.reverse].
  - now rewrite append_nil_r.
  - rewrite (reverse_acc (a ++ b)), (reverse_acc a), IH. now rewrite append_assoc.
Qed.

Lemma starts_with_sk v :
  Js.startsWith v "sk-" = true -> exists r, v = ("sk-" ++ r)%string.
Proof.
  unfold Js.startsWith. intros H.
  destruct v as [|a [|b [|c r]]]; cbn in H; try discriminate;
    repeat match type of H with
           | (if ?d then _ else _) = true => destruct d; [subst|discriminate]
           end; try discriminate.
  now exists r.
Qed.

(** Stripping white space from the end of a text never reaches into the
    three characters [sk-]: on the reversed text it stops before [-ks]. *)
Lemma strip_stops_before_sk fuel : forall x,
  exists x', Js.strip Js.trailing_ws fuel (x ++ "-ks") = (x' ++ "-ks")%string.
Proof.
  induction fuel as [|fuel IH]; intros x; [now exists x|].
  cbn [Js.strip].
  assert (H : Js.trailing_ws (x ++ "-ks") = 0
              \/ exists x', Js.trailing_ws (x ++ "-ks") <> 0 /\
                            Js.slice (Js.trailing_ws (x ++ "-ks")) (x ++ "-ks")
                            = (x' ++ "-ks")%string).
  { destruct x as [|c1 [|c2 [|c3 x3]]]; cbn [append Js.trailing_ws].
    - left. reflexivity.
    - destruct (Js.ws1 (nat_of_ascii c1)); [right; now exists ""|].
      left. reflexivity.
    - destruct (Js.ws1 (nat_of_ascii c1)); [right; now exists (String c2 "")|].
      destruct (Js.ws2 (nat_of_ascii c2) (nat_of_ascii c1)); [right; now exists ""|].
      left. reflexivity.
    - destruct (Js.ws1 (nat_of_ascii c1));
        [right; now exists (String c2 (String c3 x3))|].
      destruct (Js.ws2 (nat_of_ascii c2) (nat_of_ascii c1));
        [right; now exists (String c3 x3)|].
      destruct (Js.ws3 (nat_of_ascii c3) (nat_of_ascii c2) (nat_of_ascii c1));
        [right; now exists x3|].
      left. reflexivity. }
  destruct H as [-> | [x' [Hn Hs]]]; [now exists x|].
  destruct (Js.trailing_ws (x ++ "-ks")) as [|n] eqn:E; [now destruct Hn|].
  rewrite Hs. apply IH.
Qed.

Lemma trim_keeps_sk v :
  Js.startsWith v "sk-" = true -> Js.startsWith (Js.trim v) "sk-" = true.
Proof.
  intros H. destruct (starts_with_sk v H) as [r ->].
  unfold Js.trim.
  assert (S : Js.trimStart ("sk-" ++ r) = ("sk-" ++ r)%string) by reflexivity.
  rewrite S. unfold Js.trimEnd.
  rewrite (reverse_app "sk-" r).
  change (Js.reverse "" "sk-") with "-ks".
  destruct (strip_stops_before_sk (String.length ("sk-" ++ r)) (Js.reverse "" r))
    as [x' ->].
  rewrite reverse_app. change (Js.reverse "" "-ks") with "sk-".
  unfold Js.startsWith. cbn [append String.prefix].
  repeat match goal with
         | |- (if ?d then _ else _) = true => destruct d; [|congruence]
         end.
  now destruct (Js.reverse "" x').
Qed.

End TrimFacts.

Section KeyStore.

Import AuthManager.

Variable config : WorkspaceConfiguration.

Lemma truthy_not_empty o :
  Js.truthy o = true -> exists k, o = Some k /\ k <> "".
Proof.
  destruct o as [k|]; [|discriminate]. cbn. intros H. exists k. split; [reflexivity|].
  intros ->. discriminate.
Qed.

Lemma getApiKey_not_empty (secretStorage : SecretStorage) :
  getApiKey secretStorage config <> Some "".
Proof.
  unfold getApiKey.
  destruct (Js.truthy (secretStorage API_KEY_SECRET)) eqn:T.
  - destruct (truthy_not_empty _ T) as [k [-> Hk]]. congruence.
  - destruct (config "apiKey") as [k|]; [|discriminate].
    destruct (negb (k =? "")%string); cbn [andb]; [|discriminate].
    destruct (Js.trim k =? "")%string eqn:E; cbn [negb]; [discriminate|].
    intros H. injection H as H. rewrite H in E. discriminate.
Qed.

(** X9. [getApiKey] never gives the empty string, from the secrets or
    from the settings, so [hasApiKey] is true exactly when [getApiKey]
    gives a key; and the settings are consulted only when there is no
    usable secret. *)
Theorem api_key_is_never_empty (secretStorage : SecretStorage) :
  getApiKey secretStorage config <> Some ""
  /\ hasApiKey secretStorage config
     = match getApiKey secretStorage config with Some _ => true | None => false end
  /\ getApiKey secretStorage config
     = if Js.truthy (secretStorage API_KEY_SECRET) then secretStorage API_KEY_SECRET
       else getApiKey (fun _ => None) config.
Proof.
  pose proof (getApiKey_not_empty secretStorage) as A.
  split; [exact A|]. split.
  - unfold hasApiKey. destruct (getApiKey secretStorage config) as [k|]; [|reflexivity].
    destruct (k =? "")%string eqn:E; [|reflexivity].
    apply String.eqb_eq in E. subst k. now destruct A.
  - unfold getApiKey. now destruct (Js.truthy (secretStorage API_KEY_SECRET)).
Qed.

Lemma getApiKey_after_set (secretStorage : SecretStorage) (apiKey : string) :
  getApiKey (setApiKey secretStorage apiKey) config
  = (if (apiKey =? "")%string then getApiKey (fun _ => None) config else Some apiKey).
Proof.
  unfold getApiKey, setApiKey, store.
  rewrite String.eqb_refl. cbn [Js.truthy].
  now destruct (apiKey =? "")%string.
Qed.

(** X10. Storing and reading back: after [setApiKey] with a key that is
    not empty, [getApiKey] gives that very key, untrimmed, whatever the
    settings say; after [setApiKey] with the empty string or after
    [deleteApiKey], it gives what the settings alone give. *)
Theorem stored_key_round_trip (secretStorage : SecretStorage) (apiKey : string) :
  getApiKey (setApiKey secretStorage apiKey) config
  = (if (apiKey =? "")%string then getApiKey (fun _ => None) config else Some apiKey)
  /\ getApiKey (deleteApiKey secretStorage) config = getApiKey (fun _ => None) config.
Proof.
  split; [apply getApiKey_after_set|].
  unfold getApiKey, deleteApiKey, delete.
  now rewrite String.eqb_refl.
Qed.

Lemma accepted_value value :
  validateInput value = None ->
  (value =? "")%string = false
  /\ (Js.trim value =? "")%string = false
  /\ Js.startsWith value "sk-" = true.
Proof.
  unfold validateInput. intros H.
  destruct (value =? "")%string; [discriminate|].
  destruct (Js.trim value =? "")%string; [discriminate|].
  cbn [orb] in H.
  destruct (Js.startsWith value "sk-"); [now repeat split | discriminate].
Qed.

(** X11. A value the input box accepts is stored trimmed, and the stored
    key is one [getApiKey] gives back: it is not empty and it still
    starts with [sk-], as the value did before trimming. *)
Theorem accepted_key_is_stored_trimmed (secretStorage : SecretStorage) (value : string) :
  validateInput value = None ->
  let p := promptForApiKey (Some value) secretStorage in
  configured p = true
  /\ getApiKey (secrets p) config = Some (Js.trim value)
  /\ hasApiKey (secrets p) config = true
  /\ Js.startsWith (Js.trim value) "sk-" = true.
Proof.
  intros H. destruct (accepted_value value H) as [E1 [E2 E3]].
  cbv zeta. unfold promptForApiKey. cbn [Js.truthy]. rewrite E1.
  cbn [negb configured secrets].
  assert (G : getApiKey (setApiKey secretStorage (Js.trim value)) config
              = Some (Js.trim value)).
  { now rewrite getApiKey_after_set, E2. }
  repeat split.
  - exact G.
  - unfold hasApiKey. now rewrite G, E2.
  - now apply trim_keeps_sk.
Qed.

End KeyStore.

(* ================================================================== *)
(** * Further properties of the message bridge *)

Section BridgeAtLarge.

Variable JSON_stringify : Json.json -> string.
Variable JSON_stringify_content : list vscode.ResultItem -> string.

Local Abbreviation convertMessage :=
  (Provider.convertMessage JSON_stringify JSON_stringify_content).
Local Abbreviation convertMessages :=
  (Provider.convertMessages JSON_stringify JSON_stringify_content).

Lemma convertMessages_from reasoningCache isReasoner messages : forall result,
  fold_left (fun result message =>
               result ++ convertMessage reasoningCache isReasoner message)
            messages result
  = result ++ flat_map (convertMessage reasoningCache isReasoner) messages.
Proof.
  induction messages as [|m messages IH]; intros result; cbn [fold_left flat_map].
  - now rewrite app_nil_r.
  - now rewrite IH, app_assoc.
Qed.

Lemma convertMessages_flat_map reasoningCache isReasoner messages :
  convertMessages reasoningCache messages isReasoner
  = flat_map (convertMessage reasoningCache isReasoner) messages.
Proof. unfold Provider.convertMessages. now rewrite convertMessages_from. Qed.

(** X13. The bridge works turn by turn: the wire messages of a
    conversation are those of its turns, in order, so bridging two
    conversations one after the other is bridging each and appending the
    results; no turn changes what another turn gives. *)
Theorem bridge_is_turn_by_turn reasoningCache isReasoner before after :
  convertMessages reasoningCache (before ++ after) isReasoner
  = convertMessages reasoningCache before isReasoner
    ++ convertMessages reasoningCache after isReasoner.
Proof.
  unfold Provider.convertMessages.
  rewrite fold_left_app, (convertMessages_from _ _ after).
  f_equal. symmetry. apply (convertMessages_from _ _ after []).
Qed.

Lemma convertMessage_shape reasoningCache isReasoner message :
  convertMessage reasoningCache isReasoner message
  = (match Provider.mapRole (vscode.role message) with
     | assistant =>
         [assistantMessage isReasoner
            (match (if isReasoner
                    then Provider.cachedReasoning reasoningCache
                           (calls JSON_stringify (vscode.content message))
                    else None) with
             | Some r => r
             | None => ""
             end)
            (texts (vscode.content message))
            (calls JSON_stringify (vscode.content message))]
     | _ =>
         if (texts (vscode.content message) =? "")%string then []
         else [userMessage (texts (vscode.content message))]
     end)
    ++ map Provider.toolMessage
         (results JSON_stringify_content (vscode.content message)).
Proof.
  unfold Provider.convertMessage. rewrite collect_parts.
  cbn [Provider.text_content Provider.toolCalls Provider.toolResults app append].
  destruct (vscode.role message); cbn [Provider.mapRole]; try reflexivity;
    now destruct (texts (vscode.content message) =? "")%string.
Qed.

(** X14. Every wire message the bridge emits is well formed for its
    role.  There is no [system] message.  A [user] message has content
    that is not empty and nothing else.  An [assistant] message has no
    tool-call reference, never an empty list of tool calls, and a
    reasoning field exactly when the target is the reasoner.  A [tool]
    message has its tool-call reference and neither tool calls nor
    reasoning. *)
Theorem wire_messages_are_well_formed reasoningCache isReasoner messages :
  Forall (well_formed isReasoner) (convertMessages reasoningCache messages isReasoner).
Proof.
  rewrite convertMessages_flat_map. apply Forall_flat_map.
  apply Forall_forall. intros message _. rewrite convertMessage_shape.
  apply Forall_app. split.
  - assert (U : Forall (well_formed isReasoner)
                  (if (texts (vscode.content message) =? "")%string then []
                   else [userMessage (texts (vscode.content message))])).
    { destruct (texts (vscode.content message) =? "")%string eqn:E; constructor;
        [|constructor].
      unfold well_formed, userMessage. cbn. repeat split.
      intros H. rewrite H in E. discriminate. }
    destruct (vscode.role message); cbn [Provider.mapRole]; try exact U.
    constructor; [|constructor].
    unfold well_formed, assistantMessage. cbn. repeat split.
    + now destruct (calls JSON_stringify (vscode.content message)).
    + now destruct isReasoner.
  - apply Forall_forall. intros m Hin. apply in_map_iff in Hin.
    destruct Hin as [tr [<- _]]. unfold well_formed, Provider.toolMessage. cbn.
    repeat split. discriminate.
Qed.

(** X15. An assistant turn always gives exactly one [assistant] wire
    message, also when it has no text (the content is then the empty
    string): it carries the concatenation of the text parts and the tool
    calls of the turn in their order, with their input serialized, and it
    is followed by one [tool] message per tool-result part. *)
Theorem assistant_turn_wire_messages reasoningCache isReasoner parts :
  convertMessages reasoningCache
    [{| vscode.role := vscode.Assistant; vscode.content := parts |}] isReasoner
  = assistantMessage isReasoner
      (match (if isReasoner
              then Provider.cachedReasoning reasoningCache (calls JSON_stringify parts)
              else None) with
       | Some r => r
       | None => ""
       end)
      (texts parts) (calls JSON_stringify parts)
    :: map Provider.toolMessage (results JSON_stringify_content parts).
Proof.
  rewrite convertMessages_flat_map. cbn [flat_map].
  now rewrite app_nil_r, convertMessage_shape.
Qed.

End BridgeAtLarge.

(* ================================================================== *)
(** * Further properties of the provider *)

Section ProviderAtLarge.

Variable JSON_stringify : Json.json -> string.
Variable JSON_stringify_content : list vscode.ResultItem -> string.
Variable JSON_parse : string -> option Json.json.
Variable JSON_parse_chunk : string -> option Chunk.DeepSeekStreamChunk.
Variable decoder : TextDecoder.
Variable responseId : string.

Local Abbreviation provide :=
  (Provider.provideLanguageModelChatResponse
     JSON_stringify JSON_stringify_content JSON_parse JSON_parse_chunk decoder
     responseId).
Local Abbreviation callback := (Provider.callback JSON_parse responseId).
Local Abbreviation respond := (Provider.respond JSON_parse responseId).
Local Abbreviation client :=
  (streamChatCompletion JSON_parse JSON_parse_chunk true decoder).

Lemma cachedReasoning_empty tcs : Provider.cachedReasoning [] tcs = None.
Proof. induction tcs as [|tc tcs IH]; [reflexivity | exact IH]. Qed.

(** X16. The request never carries cached reasoning: the cache is
    cleared before the conversation is bridged, so every lookup misses,
    whatever the provider held.  In the request every [assistant] message
    has the empty string as reasoning when the model is the reasoner and
    no reasoning field otherwise, and no other message has the field. *)
Theorem request_never_carries_cached_reasoning apiKey held modelId messages f :
  match Provider.provideLanguageModelChatResponse
          JSON_stringify JSON_stringify_content JSON_parse JSON_parse_chunk decoder
          responseId apiKey held modelId messages f with
  | inr (request, _) =>
      Forall (fun m =>
                reasoning_content m
                = match role m with
                  | assistant =>
                      if (modelId =? "deepseek-reasoner")%string
                      then Some "" else None
                  | _ => None
                  end) request
  | inl _ => True
  end.
Proof.
  unfold Provider.provideLanguageModelChatResponse.
  destruct (Js.truthy apiKey); [|exact I].
  cbv zeta. unfold Provider.Map_clear.
  rewrite convertMessages_flat_map. apply Forall_flat_map.
  apply Forall_forall. intros message _. rewrite convertMessage_shape.
  apply Forall_app. split.
  - destruct (Provider.mapRole (vscode.role message)).
    1,2,4: destruct (texts (vscode.content message) =? "")%string;
      repeat constructor.
    constructor; [|constructor]. unfold assistantMessage. cbn.
    rewrite cachedReasoning_empty.
    now destruct (modelId =? "deepseek-reasoner")%string.
  - apply Forall_forall. intros m Hin. apply in_map_iff in Hin.
    now destruct Hin as [tr [<- _]].
Qed.

Lemma callback_reports isReasoner s e :
  Provider.reported (callback isReasoner s e)
  = Provider.reported s ++ reports_of JSON_parse [e]
  /\ Provider.toolCallIds (callback isReasoner s e)
     = Provider.toolCallIds s ++ map id (delivered [e]).
Proof.
  destruct e as [c|c|tc|err|]; cbn; rewrite ?app_nil_r; try (split; reflexivity).
  unfold Provider.recordResponse. now destruct (isReasoner && _).
Qed.

Lemma callbacks_report isReasoner events : forall s,
  Provider.reported (fold_left (callback isReasoner) events s)
  = Provider.reported s ++ reports_of JSON_parse events
  /\ Provider.toolCallIds (fold_left (callback isReasoner) events s)
     = Provider.toolCallIds s ++ map id (delivered events).
Proof.
  induction events as [|e events IH]; intros s.
  - cbn. now rewrite !app_nil_r.
  - cbn [fold_left]. destruct (IH (callback isReasoner s e)) as [R T].
    destruct (callback_reports isReasoner s e) as [R' T'].
    rewrite R, T, R', T'. unfold reports_of, delivered. cbn [flat_map].
    rewrite !app_nil_r, <- !app_assoc, map_app. split; reflexivity.
Qed.

(** X17. What reaches the caller follows the callbacks one for one and
    in order: a text part for each content callback and a tool-call part
    for each completed tool call, whose input is the parsed arguments, or
    the empty object when they do not parse.  Reasoning text, errors and
    completion report nothing; the list of tool-call ids is that of the
    calls delivered. *)
Theorem reports_follow_the_callbacks isReasoner held events :
  Provider.reported (respond isReasoner held events) = reports_of JSON_parse events
  /\ Provider.toolCallIds (respond isReasoner held events)
     = map id (delivered events).
Proof.
  unfold Provider.respond. destruct (callbacks_report isReasoner events (Provider.start held))
    as [R T].
  now rewrite R, T.
Qed.

Lemma callback_quiet isReasoner s e :
  terminal e = false ->
  Provider.settled (callback isReasoner s e) = Provider.settled s.
Proof. destruct e; cbn; try discriminate; reflexivity. Qed.

Lemma callbacks_quiet isReasoner events : forall s,
  Forall (fun e => terminal e = false) events ->
  Provider.settled (fold_left (callback isReasoner) events s) = Provider.settled s.
Proof.
  induction events as [|e events IH]; intros s H; [reflexivity|].
  inversion H as [|? ? He Hrest]; subst. cbn [fold_left].
  now rewrite (IH _ Hrest), callback_quiet.
Qed.

Lemma session_ends f :
  exists before t,
    client f = before ++ [t]
    /\ Forall (fun e => terminal e = false) before
    /\ (t = onDone \/ exists err, t = onError err).
Proof.
  assert (C : forall e, exists before t,
               catch e = before ++ [t]
               /\ Forall (fun e => terminal e = false) before
               /\ (t = onDone \/ exists err, t = onError err)).
  { intros e. destruct (catch_shape e) as [H | [err H]]; rewrite H.
    - exists [], onDone. repeat split; auto.
    - exists [], (onError err). repeat split; eauto. }
  unfold streamChatCompletion. destruct f as [e|r]; [apply C|].
  destruct (negb (ok r)); [destruct (text r); apply C|].
  destruct (response_body r) as [b|]; [|apply C].
  destruct (readLoop_shape JSON_parse_chunk true decoder b (decoder_new decoder) "" [])
    as [before [Hq [H | [err H]]]]; rewrite H.
  - exists before, onDone. repeat split; auto.
  - exists before, (onError err). repeat split; eauto.
Qed.

(** X18. The promise of [provideLanguageModelChatResponse] is settled by
    every session of the client, once, and as the session ends: resolved
    when the last callback is [onDone], rejected with the error of the
    last callback when that is [onError]. *)
Theorem promise_settles_as_the_session_ends isReasoner held f :
  Provider.settled (respond isReasoner held (client f))
  = Some (match last (client f) onDone with
          | onError err => Provider.Rejected err
          | _ => Provider.Resolved
          end).
Proof.
  destruct (session_ends f) as [before [t [E [Hq Ht]]]].
  rewrite E, last_last. unfold Provider.respond. rewrite fold_left_app.
  cbn [fold_left].
  pose proof (callbacks_quiet isReasoner before (Provider.start held) Hq) as Q.
  cbn [Provider.start Provider.settled] in Q.
  destruct Ht as [-> | [err ->]]; cbn [Provider.callback].
  - unfold Provider.handleDone, Provider.settle, Provider.with_cache.
    cbn [Provider.settled].
    unfold Provider.recordResponse.
    destruct (isReasoner && _); cbn [Provider.settled]; now rewrite Q.
  - unfold Provider.settle. cbn [Provider.settled]. now rewrite Q.
Qed.

Lemma evictOverCapacity_nil : Provider.evictOverCapacity [] = [].
Proof. reflexivity. Qed.

(** X19. For a model other than the reasoner the cache is never
    written: whatever the callbacks, the cache stays empty and no
    response identifier is made. *)
Theorem other_models_never_write_the_cache held events :
  Provider.reasoningCache (respond false held events) = []
  /\ Provider.responseMessageId (respond false held events) = None.
Proof.
  unfold Provider.respond.
  assert (H : forall s,
             Provider.reasoningCache s = [] /\ Provider.responseMessageId s = None ->
             Provider.reasoningCache (fold_left (callback false) events s) = []
             /\ Provider.responseMessageId (fold_left (callback false) events s) = None).
  { induction events as [|e events IH]; intros s [Hc Hr]; [now split|].
    cbn [fold_left]. apply IH.
    destruct e as [c|c|tc|err|]; cbn; rewrite ?Hc, ?Hr; now split. }
  apply H. now split.
Qed.

(** X20. Reasoning text is attached to the first tool call delivered
    after it and to no other: with the reasoner, a tool call that finds
    reasoning pending stores all of it, the text pending before and the
    fragments received since, under its id, and one that finds none
    leaves the cache as it is; in both cases nothing is pending after the
    call. *)
Theorem tool_call_takes_the_pending_reasoning s fragments toolCall :
  let pending := (Provider.currentReasoningContent s ++ joined fragments)%string in
  let s' := fold_left (callback true)
                      (map onReasoningContent fragments ++ [onToolCall toolCall]) s in
  Provider.currentReasoningContent s' = ""
  /\ Provider.reasoningCache s'
     = if (pending =? "")%string then Provider.reasoningCache s
       else Provider.Map_set (Provider.reasoningCache s) (id toolCall) pending.
Proof.
  cbv zeta. rewrite fold_left_app. cbn [fold_left].
  assert (H : forall fs s0,
             Provider.currentReasoningContent
               (fold_left (callback true) (map onReasoningContent fs) s0)
             = (Provider.currentReasoningContent s0 ++ joined fs)%string
             /\ Provider.reasoningCache
                  (fold_left (callback true) (map onReasoningContent fs) s0)
                = Provider.reasoningCache s0).
  { induction fs as [|x fs IH]; intros s0; cbn [map fold_left joined fold_right].
    - now rewrite append_nil_r.
    - destruct (IH (callback true s0 (onReasoningContent x))) as [A B].
      rewrite A, B. cbn. now rewrite append_assoc. }
  destruct (H fragments s) as [A B].
  cbn [Provider.callback]. unfold Provider.handleToolCall, Provider.report.
  cbn [Provider.currentReasoningContent Provider.reasoningCache andb].
  rewrite A, B.
  destruct (_ =? "")%string eqn:E; cbn [negb]; [|now split].
  apply String.eqb_eq in E. now split.
Qed.

End ProviderAtLarge.

(** ** The models, the tools and the token count *)

Section Catalog.

Import AuthManager.

Variable config : WorkspaceConfiguration.

Lemma listed_then_key
      (silent : bool) (showInputBox : option string) (secretStorage : SecretStorage) :
  (forall value, showInputBox = Some value -> validateInput value = None) ->
  Provider.information
    (Provider.provideLanguageModelChatInformation
       silent showInputBox secretStorage config) <> [] ->
  hasApiKey
    (Provider.secrets_after
       (Provider.provideLanguageModelChatInformation
          silent showInputBox secretStorage config)) config = true.
Proof.
  intros Hvalid. unfold Provider.provideLanguageModelChatInformation.
  destruct (hasApiKey secretStorage config) eqn:Hk; cbn [negb]; [auto|].
  destruct silent; [now cbn|].
  destruct showInputBox as [value|]; [|now cbn].
  destruct (accepted_value value (Hvalid value eq_refl)) as [E1 [E2 _]].
  unfold promptForApiKey. cbn [Js.truthy]. rewrite E1.
  cbn [negb configured secrets Provider.secrets_after]. intros _.
  unfold hasApiKey. now rewrite getApiKey_after_set, E2, E2.
Qed.

(** X12. The models are listed exactly when a key is configured once
    the call is over: with a key already there the call lists them
    without prompting; without one it prompts, unless it is silent, and
    lists them when the user gave a key.  A silent call and a call with a
    key never prompt and leave the secrets as they were.  The value the
    input box resolves to is one its [validateInput] accepts. *)
Theorem models_are_listed_when_a_key_is_configured
        (silent : bool) (showInputBox : option string) (secretStorage : SecretStorage) :
  (forall value, showInputBox = Some value -> validateInput value = None) ->
  let r := Provider.provideLanguageModelChatInformation
             silent showInputBox secretStorage config in
  Provider.information r
  = (if hasApiKey (Provider.secrets_after r) config then Models.MODELS else [])
  /\ Provider.prompted r = negb silent && negb (hasApiKey secretStorage config)
  /\ (if Provider.prompted r then True else Provider.secrets_after r = secretStorage).
Proof.
  intros Hvalid. cbv zeta. unfold Provider.provideLanguageModelChatInformation.
  rewrite map_id.
  destruct (hasApiKey secretStorage config) eqn:Hk; cbn [negb].
  - cbn [Provider.information Provider.secrets_after Provider.prompted].
    rewrite Hk, andb_false_r. repeat split.
  - destruct silent; cbn [negb andb].
    + cbn [Provider.information Provider.secrets_after Provider.prompted].
      rewrite Hk. repeat split.
    + destruct showInputBox as [value|].
      * destruct (accepted_value value (Hvalid value eq_refl)) as [E1 [E2 _]].
        unfold promptForApiKey. cbn [Js.truthy]. rewrite E1.
        cbn [negb configured secrets Provider.information Provider.secrets_after
             Provider.prompted].
        unfold hasApiKey. rewrite getApiKey_after_set, E2. cbn [negb].
        rewrite E2. repeat split.
      * cbn. rewrite Hk. repeat split.
Qed.


Section Configured.

Variable JSON_stringify : Json.json -> string.
Variable JSON_stringify_content : list vscode.ResultItem -> string.
Variable JSON_parse : string -> option Json.json.
Variable JSON_parse_chunk : string -> option Chunk.DeepSeekStreamChunk.
Variable decoder : TextDecoder.
Variable responseId : string.

(** X23. A chat request fails with the configuration error exactly when
    [getApiKey] gives no key.  So once the models were listed, a request
    made with the secrets that call left does not fail for want of a key:
    it bridges the conversation and runs the session. *)
Theorem listed_models_can_be_used
        (silent : bool) (showInputBox : option string) (secretStorage : SecretStorage)
        held modelId messages f :
  (forall value, showInputBox = Some value -> validateInput value = None) ->
  let provide s :=
    Provider.provideLanguageModelChatResponse
      JSON_stringify JSON_stringify_content JSON_parse JSON_parse_chunk decoder
      responseId (getApiKey s config) held modelId messages f in
  (forall s, (exists error, provide s = inl error) <-> getApiKey s config = None)
  /\ (Provider.information
        (Provider.provideLanguageModelChatInformation
           silent showInputBox secretStorage config) <> [] ->
      exists request session,
        provide (Provider.secrets_after
                   (Provider.provideLanguageModelChatInformation
                      silent showInputBox secretStorage config))
        = inr (request, session)).
Proof.
  intros Hvalid. cbv zeta.
  assert (A : forall s,
             (exists error,
                 Provider.provideLanguageModelChatResponse
                   JSON_stringify JSON_stringify_content JSON_parse JSON_parse_chunk
                   decoder responseId (getApiKey s config) held modelId messages f
                 = inl error)
             <-> getApiKey s config = None).
  { intros s. unfold Provider.provideLanguageModelChatResponse.
    pose proof (getApiKey_not_empty config s) as N.
    destruct (getApiKey s config) as [k|]; cbn [Js.truthy].
    - destruct (k =? "")%string eqn:E.
      + apply String.eqb_eq in E. subst k. now destruct N.
      + cbn [negb]. split; [intros [error H]; discriminate | discriminate].
    - split; [reflexivity | eauto]. }
  split; [exact A|].
  intros Hlisted.
  pose proof (listed_then_key silent showInputBox secretStorage Hvalid Hlisted) as Hk.
  set (r := Provider.provideLanguageModelChatInformation
              silent showInputBox secretStorage config) in *.
  unfold hasApiKey in Hk. unfold Provider.provideLanguageModelChatResponse.
  destruct (getApiKey (Provider.secrets_after r) config) as [k|]; [|discriminate].
  cbn [Js.truthy]. rewrite Hk. eauto.
Qed.

End Configured.

End Catalog.

Lemma ceil_quarter_bounds n :
  n <= 4 * Provider.ceil_quarter n /\ 4 * Provider.ceil_quarter n < n + 4.
Proof.
  unfold Provider.ceil_quarter.
  pose proof (Nat.div_mod_eq n 4) as D.
  pose proof (Nat.mod_upper_bound n 4 ltac:(discriminate)) as U.
  destruct (n mod 4 =? 0) eqn:E.
  - apply Nat.eqb_eq in E. lia.
  - apply Nat.eqb_neq in E. lia.
Qed.

Lemma length_app a b : Js.length (a ++ b) = Js.length a + Js.length b.
Proof.
  induction a as [|c a IH]; [reflexivity|].
  cbn [append Js.length]. rewrite IH. lia.
Qed.

Lemma message_text parts : forall acc,
  fold_left (fun content part =>
               match part with
               | vscode.LanguageModelTextPart value => (content ++ value)%string
               | _ => content
               end) parts acc
  = (acc ++ texts parts)%string.
Proof.
  induction parts as [|part parts IH]; intros acc.
  - cbn. now rewrite append_nil_r.
  - cbn [fold_left]. rewrite IH.
    destruct part; unfold texts; cbn [flat_map app joined fold_right];
      rewrite ?append_assoc; reflexivity.
Qed.

(** X21. The token estimate is at least 1 and is a quarter of the
    length in code units, rounded up: four times the estimate is never
    less than the length, and exceeds it by less than four, save for the
    empty text, whose estimate is 1.  A message is estimated as the
    concatenation of its text parts: its tool calls and tool results add
    nothing, and the estimate of two texts together is at most the sum
    of their estimates. *)
Theorem token_estimate_bounds :
  (forall text,
      let n := Provider.provideTokenCount (inl text) in
      1 <= n /\ Js.length text <= 4 * n /\ 4 * n < Nat.max 1 (Js.length text) + 4)
  /\ (forall message,
        Provider.provideTokenCount (inr message)
        = Provider.provideTokenCount (inl (texts (vscode.content message))))
  /\ (forall a b,
        Provider.provideTokenCount (inl (a ++ b)%string)
        <= Provider.provideTokenCount (inl a) + Provider.provideTokenCount (inl b)).
Proof.
  split; [|split].
  - intros text. cbv zeta. cbn [Provider.provideTokenCount].
    pose proof (ceil_quarter_bounds (Js.length text)). lia.
  - intros message. cbn [Provider.provideTokenCount]. now rewrite message_text.
  - intros a b. cbn [Provider.provideTokenCount]. rewrite length_app.
    pose proof (ceil_quarter_bounds (Js.length a)).
    pose proof (ceil_quarter_bounds (Js.length b)).
    pose proof (ceil_quarter_bounds (Js.length a + Js.length b)). lia.
Qed.

Lemma tool_model modelId :
  match Models.find modelId with
  | Some m => Models.toolCalling (Models.capabilities m)
  | None => false
  end
  = (modelId =? "deepseek-chat")%string || (modelId =? "deepseek-reasoner")%string.
Proof.
  unfold Models.find, Models.MODELS. cbn [find Models.id].
  rewrite (String.eqb_sym "deepseek-chat"), (String.eqb_sym "deepseek-reasoner").
  destruct (modelId =? "deepseek-chat")%string; [reflexivity|].
  now destruct (modelId =? "deepseek-reasoner")%string.
Qed.

(** X22. The request carries tools only for a model of the catalog and
    only when the caller gave some: the [tools] field is never the empty
    list, it has one tool per tool given, with the same names in the same
    order, and [tool_choice] is [auto] exactly when the field is there. *)
Theorem request_tools_are_present_or_omitted modelId deepseekMessages optionsTools :
  let r := Tools.chatRequest modelId deepseekMessages optionsTools in
  Tools.tools r <> Some []
  /\ Tools.tool_choice r
     = match Tools.tools r with Some _ => Some Tools.auto | None => None end
  /\ Tools.tools r
     = (if (modelId =? "deepseek-chat")%string || (modelId =? "deepseek-reasoner")%string
        then Tools.convertTools optionsTools else None)
  /\ match Tools.tools r with
     | Some l =>
         exists given,
           optionsTools = Some given
           /\ map (fun t => Tools.name (Tools.function t)) l
              = map Tools.Chat.name given
     | None => True
     end.
Proof.
  cbv zeta. unfold Tools.chatRequest. cbn [Tools.tools Tools.tool_choice].
  assert (E : match Models.find modelId with
              | Some m =>
                  if Models.toolCalling (Models.capabilities m)
                  then Tools.convertTools optionsTools else None
              | None => None
              end
              = if (modelId =? "deepseek-chat")%string
                   || (modelId =? "deepseek-reasoner")%string
                then Tools.convertTools optionsTools else None).
  { rewrite <- tool_model. now destruct (Models.find modelId). }
  rewrite E.
  destruct ((modelId =? "deepseek-chat")%string
            || (modelId =? "deepseek-reasoner")%string);
    [|repeat split; discriminate].
  destruct optionsTools as [[|t ts]|]; cbn; repeat split; try discriminate.
  exists (t :: ts). split; [reflexivity|].
  cbn. f_equal. now rewrite map_map.
Qed.

(* ================================================================== *)
(** * Instances of the further properties *)

Lemma ignored_line_instance :
  onLines View.parse_chunk true [] (two_calls ++ "data: {'choices':[" :: ["data: [DONE]"])
  = onLines View.parse_chunk true [] (two_calls ++ ["data: [DONE]"]).
Proof.
  refine (ignored_line_changes_nothing View.parse_chunk true Json.parse []
            two_calls "data: {'choices':[" ["data: [DONE]"] _ eq_refl).
  intros payload H. unfold View.parse_chunk. now rewrite H.
Defined.

Lemma sentinel_instance :
  readLoop View.parse_chunk true ascii_decoder tt "" []
    (Read (one_call ++ line "data: [DONE]")
          (ReadFails (ThrowOther "connection reset")))
  = readLoop View.parse_chunk true ascii_decoder tt "" []
      (Read (one_call ++ line "data: [DONE]") Closed).
Proof.
  refine (proj2 (nothing_follows_the_sentinel View.parse_chunk true ascii_decoder)
                tt "" [] (one_call ++ line "data: [DONE]")
                (ReadFails (ThrowOther "connection reset")) Closed _).
  vm_compute. reflexivity.
Defined.

Lemma unterminated_sentinel_instance :
  readLoop View.parse_chunk true ascii_decoder tt "" [(0%Z, call "call_1" "f" "{}")]
    (Read (bytes "data: [DONE]") Closed)
  = [onDone].
Proof.
  refine (proj2 (unterminated_text_is_only_buffered View.parse_chunk true ascii_decoder
                   tt "" [(0%Z, call "call_1" "f" "{}")] (bytes "data: [DONE]") _)).
  vm_compute. reflexivity.
Defined.

Lemma first_id_instance :
  Map_get
    (fold_left accumulate
       [fragment 0 None (Some "get_") None;
        fragment 1 (Some "call_b") (Some "get_time") None;
        fragment 0 (Some "call_a") (Some "weather") (Some "{");
        fragment 0 (Some "call_z") None (Some "}")] []) 0
  = Some (call "call_a" "weather" "{}").
Proof.
  refine (call_is_opened_by_its_first_id
            [fragment 0 None (Some "get_") None;
             fragment 1 (Some "call_b") (Some "get_time") None;
             fragment 0 (Some "call_a") (Some "weather") (Some "{");
             fragment 0 (Some "call_z") None (Some "}")]
            [] 0
            [fragment 0 None (Some "get_") None]
            (fragment 0 (Some "call_a") (Some "weather") (Some "{"))
            [fragment 0 (Some "call_z") None (Some "}")]
            "call_a" _ _ _ _ _).
  - reflexivity.
  - reflexivity.
  - repeat constructor.
  - reflexivity.
  - discriminate.
Defined.

Lemma entries_order_instance :
  NoDup (map fst
           (fold_left accumulate
              [fragment 1 (Some "call_b") (Some "get_time") None;
               fragment 0 (Some "call_a") (Some "weather") (Some "{");
               fragment 1 (Some "call_c") None (Some "{}")] [])).
Proof.
  destruct (entries_keep_their_order
              [fragment 1 (Some "call_b") (Some "get_time") None;
               fragment 0 (Some "call_a") (Some "weather") (Some "{");
               fragment 1 (Some "call_c") None (Some "{}")] [])
    as [later [_ H]].
  apply H. constructor.
Defined.

Lemma sentinel_after_finish_instance :
  onLines View.parse_chunk true [] (two_calls ++ ["data: [DONE]"])
  = ([onToolCall (call "call_a" "get_weather" "{}");
      onToolCall (call "call_b" "get_time" "{}");
      onDone], None).
Proof.
  refine (sentinel_after_finish_adds_only_onDone View.parse_chunk true []
            two_calls two_calls_chunks two_calls_final "data: [DONE]" _ _ _ _);
    vm_compute; reflexivity.
Defined.

Lemma accepted_key_instance :
  let p := AuthManager.promptForApiKey (Some "sk-abc  ") (fun _ => None) in
  AuthManager.configured p = true
  /\ AuthManager.getApiKey (AuthManager.secrets p) (fun _ => None) = Some "sk-abc"
  /\ AuthManager.hasApiKey (AuthManager.secrets p) (fun _ => None) = true
  /\ Js.startsWith "sk-abc" "sk-" = true.
Proof.
  exact (accepted_key_is_stored_trimmed (fun _ => None) (fun _ => None) "sk-abc  "
           eq_refl).
Defined.

Lemma models_listed_instance :
  let r := Provider.provideLanguageModelChatInformation
             false (Some "sk-abc") (fun _ => None) (fun _ => None) in
  Provider.information r = Models.MODELS
  /\ Provider.prompted r = true
  /\ True.
Proof.
  refine (models_are_listed_when_a_key_is_configured (fun _ => None)
            false (Some "sk-abc") (fun _ => None) _).
  intros value H. injection H as <-. reflexivity.
Defined.

Lemma listed_models_instance :
  exists request session,
    Provider.provideLanguageModelChatResponse
      (fun _ => "") (fun _ => "") Json.parse View.parse_chunk ascii_decoder "response_1"
      (AuthManager.getApiKey
         (Provider.secrets_after
            (Provider.provideLanguageModelChatInformation
               false (Some "sk-abc") (fun _ => None) (fun _ => None)))
         (fun _ => None))
      [] "deepseek-chat" [tool_answer] (streaming (reads hello_in_pieces Closed))
    = inr (request, session).
Proof.
  refine (proj2 (listed_models_can_be_used (fun _ => None)
                   (fun _ => "") (fun _ => "") Json.parse View.parse_chunk
                   ascii_decoder "response_1"
                   false (Some "sk-abc") (fun _ => None)
                   [] "deepseek-chat" [tool_answer]
                   (streaming (reads hello_in_pieces Closed)) _) _).
  - intros value H. injection H as <-. reflexivity.
  - discriminate.
Defined.
